(** * Decoupling analysis for Central Asia: classifier and LMDI engine

    A shallow embedding of [src/analysis.py] (the Tapio decoupling
    classifier [get_decoupling_status]) and of [src/kazakhstan_lmdi.py]
    (the column cleaning [clean_column], the logarithmic-mean weight
    [lmdi_weight] and the year-over-year decomposition
    [run_lmdi_analysis]).

    Numbers.
    - The classifier only compares and divides.  [Float64] embeds it on
      binary64 values (Python's floats) with the correctly rounded
      division, the infinities, NaN and both zeros; the elasticity bands
      are stated there.  [Tapio] embeds it on exact rationals, a missing
      value being [None]; it serves the properties that depend only on
      signs or on ratios taken in exact arithmetic.
    - The decomposition takes logarithms.  [Np] has the reals extended with
      the two infinities and NaN and the special-value rules of numpy's
      float64 ([x / 0], [log 0], [inf - inf], ...); on finite values its
      operations are exact: rounding, overflow and the sign of zero are
      not represented, and all columns are taken as float64.  What is
      proved on [Np] about finite results is a fact of exact arithmetic;
      what is proved about NaN and the infinities follows the
      special-value rules alone. *)

From Stdlib Require Import Bool List Ascii String ZArith QArith Qfield Sorted.
From Stdlib Require Import SpecFloat.
From Stdlib Require Import Reals Lra Lia.
From Stdlib Require Lqa.
Import ListNotations.

(* ================================================================== *)
(** * Part I.  Definitions                                              *)
(* ================================================================== *)

(** ** Outcomes of Python code: a returned value or a raised exception *)

Inductive exn : Type :=
| ZeroDivisionError
| FileNotFoundError
| KeyError (missing : list string)
| IntCastingNaNError.

Inductive outcome (A : Type) : Type :=
| Returns (a : A)
| Raises (e : exn).
Arguments Returns {A} a.
Arguments Raises {A} e.

Definition bind {A B : Type} (m : outcome A) (k : A -> outcome B) : outcome B :=
  match m with
  | Returns a => k a
  | Raises e => Raises e
  end.

Notation "x <- m ;; k" := (bind m (fun x => k))
  (at level 61, m at next level, right associativity).

(** ** The Tapio classifier ([src/analysis.py]) *)

Module Tapio.

Local Open Scope Q_scope.
Local Open Scope string_scope.

(** A growth rate as the classifier receives it: [None] is NaN. *)
Definition rate : Type := option Q.

Definition isna (x : rate) : bool :=
  match x with None => true | Some _ => false end.

(** Comparisons of Python floats; every comparison with NaN is false. *)
Definition gt (x y : rate) : bool :=
  match x, y with
  | Some a, Some b => negb (Qle_bool a b)
  | _, _ => false
  end.

Definition lt (x y : rate) : bool := gt y x.

Definition le (x y : rate) : bool :=
  match x, y with
  | Some a, Some b => Qle_bool a b
  | _, _ => false
  end.

Definition ge (x y : rate) : bool := le y x.

Definition eq (x y : rate) : bool :=
  match x, y with
  | Some a, Some b => Qeq_bool a b
  | _, _ => false
  end.

(** [a / b] on Python floats: a zero divisor raises. *)
Definition truediv (x y : rate) : outcome rate :=
  match x, y with
  | Some a, Some b =>
      if Qeq_bool b 0 then Raises ZeroDivisionError else Returns (Some (a / b))
  | _, Some b =>
      if Qeq_bool b 0 then Raises ZeroDivisionError else Returns None
  | _, None => Returns None
  end.

Definition zero : rate := Some 0.
Definition c0_8 : rate := Some (8 # 10).
Definition c1_2 : rate := Some (12 # 10).

Definition get_decoupling_status (gdp_growth em_growth : rate) : outcome string :=
  if isna gdp_growth || isna em_growth then Returns "No Data"
  else if gt gdp_growth zero && lt em_growth zero then
    Returns "Strong Decoupling"
  else if gt gdp_growth zero && gt em_growth zero then
    if eq gdp_growth zero then Returns "Not Classified"
    else
      elasticity <- truediv em_growth gdp_growth ;;
      if lt elasticity c0_8 then Returns "Weak Decoupling"
      else if le elasticity c1_2 then Returns "Coupling"
      else Returns "Strong Coupling"
  else if lt gdp_growth zero && lt em_growth zero then
    if eq gdp_growth zero then Returns "Not Classified"
    else
      elasticity <- truediv em_growth gdp_growth ;;
      if gt elasticity c1_2 then Returns "Weak Recession"
      else if ge elasticity c0_8 then Returns "Coupled Recession"
      else Returns "Strong Recession"
  else if lt gdp_growth zero && gt em_growth zero then
    Returns "Strong Negative Coupling"
  else Returns "Not Classified".

(** Scaling a rate by a factor; NaN stays NaN. *)
Definition scale (k : Q) (x : rate) : rate :=
  match x with Some a => Some (k * a) | None => None end.

End Tapio.

(** ** The classifier on binary64 values *)

Module Float64.

Local Open Scope string_scope.

(** A Python float: a binary64 value. *)
Definition f64 : Type := spec_float.

Definition prec : Z := 53.
Definition emax : Z := 1024.

(** [pd.isna] on a float. *)
Definition isna (x : f64) : bool :=
  match x with S754_nan => true | _ => false end.

(** Comparisons of floats; every comparison with NaN is false. *)
Definition lt (x y : f64) : bool := SFltb x y.
Definition gt (x y : f64) : bool := SFltb y x.
Definition le (x y : f64) : bool := SFleb x y.
Definition ge (x y : f64) : bool := SFleb y x.
Definition eq (x y : f64) : bool := SFeqb x y.

(** The literals [0], [0.8] and [1.2]: the nearest binary64 values,
    0x1.999999999999ap-1 and 0x1.3333333333333p+0. *)
Definition zero : f64 := S754_zero false.
Definition c0_8 : f64 := S754_finite false 7205759403792794 (-53).
Definition c1_2 : f64 := S754_finite false 5404319552844595 (-52).

(** [a / b] on Python floats: a zero divisor raises, otherwise the
    correctly rounded quotient. *)
Definition truediv (x y : f64) : outcome f64 :=
  if eq y zero then Raises ZeroDivisionError
  else Returns (SFdiv prec emax x y).

Definition get_decoupling_status (gdp_growth em_growth : f64) : outcome string :=
  if isna gdp_growth || isna em_growth then Returns "No Data"
  else if gt gdp_growth zero && lt em_growth zero then
    Returns "Strong Decoupling"
  else if gt gdp_growth zero && gt em_growth zero then
    if eq gdp_growth zero then Returns "Not Classified"
    else
      elasticity <- truediv em_growth gdp_growth ;;
      if lt elasticity c0_8 then Returns "Weak Decoupling"
      else if le elasticity c1_2 then Returns "Coupling"
      else Returns "Strong Coupling"
  else if lt gdp_growth zero && lt em_growth zero then
    if eq gdp_growth zero then Returns "Not Classified"
    else
      elasticity <- truediv em_growth gdp_growth ;;
      if gt elasticity c1_2 then Returns "Weak Recession"
      else if ge elasticity c0_8 then Returns "Coupled Recession"
      else Returns "Strong Recession"
  else if lt gdp_growth zero && gt em_growth zero then
    Returns "Strong Negative Coupling"
  else Returns "Not Classified".

(** The quotient the classifier computes. *)
Definition elasticity_of (gdp_growth em_growth : f64) : f64 :=
  SFdiv prec emax em_growth gdp_growth.

Definition plus_infinity : f64 := S754_infinity false.
Definition minus_infinity : f64 := S754_infinity true.

(** The band table as the specification words it, on the computed
    quotient. *)
Definition bands_as_stated (gdp_growth em_growth : f64) : Prop :=
  let elasticity := elasticity_of gdp_growth em_growth in
  let status := get_decoupling_status gdp_growth em_growth in
  (gt gdp_growth zero = true -> gt em_growth zero = true ->
     (status = Returns "Weak Decoupling" <-> lt elasticity c0_8 = true) /\
     (status = Returns "Coupling" <->
        le c0_8 elasticity = true /\ le elasticity c1_2 = true) /\
     (status = Returns "Strong Coupling" <-> gt elasticity c1_2 = true)) /\
  (lt gdp_growth zero = true -> lt em_growth zero = true ->
     (status = Returns "Weak Recession" <-> gt elasticity c1_2 = true) /\
     (status = Returns "Coupled Recession" <->
        le c0_8 elasticity = true /\ le elasticity c1_2 = true) /\
     (status = Returns "Strong Recession" <-> lt elasticity c0_8 = true)).

End Float64.

(** ** numpy's float64, idealised ([np.log], [/], [*], [+], [-], [==]) *)

Module Np.

Local Open Scope R_scope.

Inductive flt : Type :=
| NaN
| Inf (negative : bool)
| Fin (r : R).

Definition R_eqb (a b : R) : bool := if Req_dec_T a b then true else false.
Definition R_ltb (a b : R) : bool := if Rlt_dec a b then true else false.
Definition R_leb (a b : R) : bool := if Rle_dec a b then true else false.

(** [pd.isna]: true of NaN only; an infinity is not a missing value. *)
Definition isna (x : flt) : bool :=
  match x with NaN => true | _ => false end.

Definition isfinite (x : flt) : bool :=
  match x with Fin _ => true | _ => false end.

(** [x == y]: NaN differs from everything, itself included. *)
Definition eqb (x y : flt) : bool :=
  match x, y with
  | Fin a, Fin b => R_eqb a b
  | Inf s, Inf s' => Bool.eqb s s'
  | _, _ => false
  end.

(** [x >= y]. *)
Definition geb (x y : flt) : bool :=
  match x, y with
  | Fin a, Fin b => R_leb b a
  | Inf false, (Fin _ | Inf _) => true
  | (Fin _ | Inf true), Inf true => true
  | _, _ => false
  end.

Definition opp (x : flt) : flt :=
  match x with
  | NaN => NaN
  | Inf s => Inf (negb s)
  | Fin a => Fin (- a)
  end.

Definition add (x y : flt) : flt :=
  match x, y with
  | NaN, _ | _, NaN => NaN
  | Inf s, Inf s' => if Bool.eqb s s' then Inf s else NaN
  | Inf s, Fin _ | Fin _, Inf s => Inf s
  | Fin a, Fin b => Fin (a + b)
  end.

Definition sub (x y : flt) : flt := add x (opp y).

Definition mul (x y : flt) : flt :=
  match x, y with
  | NaN, _ | _, NaN => NaN
  | Inf s, Inf s' => Inf (xorb s s')
  | Inf s, Fin a | Fin a, Inf s =>
      if R_eqb a 0 then NaN else Inf (xorb s (R_ltb a 0))
  | Fin a, Fin b => Fin (a * b)
  end.

(** Division does not raise on a zero divisor: it yields an infinity, or
    NaN for [0 / 0] (numpy only warns). *)
Definition div (x y : flt) : flt :=
  match x, y with
  | NaN, _ | _, NaN => NaN
  | Inf _, Inf _ => NaN
  | Inf s, Fin b => Inf (xorb s (R_ltb b 0))
  | Fin _, Inf _ => Fin 0
  | Fin a, Fin b =>
      if R_eqb b 0 then (if R_eqb a 0 then NaN else Inf (R_ltb a 0))
      else Fin (a / b)
  end.

(** [np.log]: [-inf] at zero, NaN below zero. *)
Definition log (x : flt) : flt :=
  match x with
  | NaN => NaN
  | Inf false => Inf false
  | Inf true => NaN
  | Fin a =>
      if R_ltb a 0 then NaN
      else if R_eqb a 0 then Inf true
      else Fin (ln a)
  end.

(** Truncation toward zero, as [astype(int)] does on a finite value. *)
Definition R_trunc (r : R) : Z := if Rle_dec 0 r then Zfloor r else Zceil r.

(** Rounding to the nearest integer, ties to the even one ([np.rint]). *)
Definition R_rint (r : R) : Z :=
  let f := Zfloor r in
  let d := r - IZR f in
  if Rlt_dec d (1 / 2) then f
  else if Rlt_dec (1 / 2) d then (f + 1)%Z
  else if Z.even f then f else (f + 1)%Z.

(** [round(2)] on one value, idealised: the product by 100 is taken
    exactly, where numpy takes it in floating point. *)
Definition round2 (x : flt) : flt :=
  match x with
  | Fin r => Fin (IZR (R_rint (r * 100)) / 100)
  | _ => x
  end.

End Np.

(** ** The LMDI engine ([src/kazakhstan_lmdi.py]) *)

Module Lmdi.

Import Np.
Local Open Scope string_scope.

(** The literal [1e-9]. *)
Definition eps_1e_9 : R := (/ 10 ^ 9)%R.

Definition zero : flt := Fin 0.

Definition lmdi_weight (v_t v_0 : flt) : flt :=
  if eqb v_t v_0 then v_t
  else
    let v_t := if eqb v_t zero || isna v_t then Fin eps_1e_9 else v_t in
    let v_0 := if eqb v_0 zero || isna v_0 then Fin eps_1e_9 else v_0 in
    div (sub v_t v_0) (sub (log v_t) (log v_0)).

(** *** The table *)

(** The six numeric columns of one line, after [clean_column]. *)
Record levels : Type := mkLevels {
  E_total : flt;
  E_crops : flt;
  E_livestock : flt;
  A_total : flt;
  A_crops : flt;
  A_livestock : flt
}.

(** One line of the cleaned table: the frame after [astype(int)]. *)
Record row : Type := mkRow {
  Year : Z;
  data :> levels
}.

(** One line of the table once the factor columns are added. *)
Record frow : Type := mkFrow {
  base :> row;
  S_crops : flt;
  S_livestock : flt;
  I_crops : flt;
  I_livestock : flt
}.

Definition add_factors (r : row) : frow :=
  {| base := r;
     S_crops := div (A_crops r) (A_total r);
     S_livestock := div (A_livestock r) (A_total r);
     I_crops := div (E_crops r) (A_crops r);
     I_livestock := div (E_livestock r) (A_livestock r) |}.

Inductive sector : Type := crops | livestock.

Definition sectors : list sector := [crops; livestock].

(** Column lookups by formatted name: [f'E_{sector}'] and the like. *)
Definition E_ (s : sector) (r : frow) : flt :=
  match s with crops => E_crops r | livestock => E_livestock r end.
Definition A_ (s : sector) (r : frow) : flt :=
  match s with crops => A_crops r | livestock => A_livestock r end.
Definition S_ (s : sector) (r : frow) : flt :=
  match s with crops => S_crops r | livestock => S_livestock r end.
Definition I_ (s : sector) (r : frow) : flt :=
  match s with crops => I_crops r | livestock => I_livestock r end.

(** One entry of [results]. *)
Record result : Type := mkResult {
  res_Year : Z;
  Delta_E_Total_Actual : flt;
  Effect_Activity : flt;
  Effect_Structure : flt;
  Effect_Intensity : flt;
  Delta_E_Total_Calculated : flt
}.

Definition nan_row : frow :=
  add_factors (mkRow 0 (mkLevels NaN NaN NaN NaN NaN NaN)).

(** [df.loc[i, ...]]: the line at position [i] (the index was reset). *)
Definition loc (df : list frow) (i : nat) : frow := nth i df nan_row.

(** The three running sums of the inner loop. *)
Record sums : Type := mkSums {
  delta_E_activity : flt;
  delta_E_structure : flt;
  delta_E_intensity : flt
}.

(** Body of [for sector in sectors]. *)
Definition sector_step (row_t row_t0 : frow) (acc : sums) (s : sector) : sums :=
  let E_i_t := E_ s row_t in
  let E_i_t0 := E_ s row_t0 in
  let S_i_t := S_ s row_t in
  let S_i_t0 := S_ s row_t0 in
  let I_i_t := I_ s row_t in
  let I_i_t0 := I_ s row_t0 in
  let W_i := lmdi_weight E_i_t E_i_t0 in
  {| delta_E_activity :=
       add (delta_E_activity acc)
           (mul W_i (log (div (A_total row_t) (A_total row_t0))));
     delta_E_structure :=
       add (delta_E_structure acc) (mul W_i (log (div S_i_t S_i_t0)));
     delta_E_intensity :=
       add (delta_E_intensity acc) (mul W_i (log (div I_i_t I_i_t0))) |}.

(** Body of [for i in range(1, len(df))]: the entry appended for [i]. *)
Definition lmdi_step (df : list frow) (i : nat) : result :=
  let t := i in
  let t0 := (i - 1)%nat in
  let year_t := Year (loc df t) in
  let acc :=
    fold_left (sector_step (loc df t) (loc df t0)) sectors
              (mkSums zero zero zero) in
  let delta_E_total_actual := sub (E_total (loc df t)) (E_total (loc df t0)) in
  let delta_E_total_calculated :=
    add (add (delta_E_activity acc) (delta_E_structure acc))
        (delta_E_intensity acc) in
  {| res_Year := year_t;
     Delta_E_Total_Actual := delta_E_total_actual;
     Effect_Activity := delta_E_activity acc;
     Effect_Structure := delta_E_structure acc;
     Effect_Intensity := delta_E_intensity acc;
     Delta_E_Total_Calculated := delta_E_total_calculated |}.

(** The list [results] when the loop ends. *)
Definition lmdi_results (df : list frow) : list result :=
  map (lmdi_step df) (seq 1 (List.length df - 1)).

(** The decomposition of a cleaned table: factor columns, then the loop. *)
Definition decompose (table : list row) : list result :=
  lmdi_results (map add_factors table).

(** *** The run: input file, console and output files *)

(** The frame [pd.read_csv] builds: the header's column names and, per
    line, the value found under each name.  A cell is represented by the
    number that [clean_column] (or [pd.to_numeric] with [errors='coerce'],
    for the year) makes of it: NaN when its text is not a number.  The
    text cleaning itself is not modelled. *)
Record frame : Type := mkFrame {
  columns : list string;
  records : list (string -> flt)
}.

Definition src_Year := "Переменная ->".
Definition src_E_total := "Emissions total  (CO2eq) (AR5) Agriculture".
Definition src_E_crops := "Emissions Crops total (kt CO2eq)".
Definition src_E_livestock := "Emissions Livestock total kt (CO2eq)".
Definition src_A_total :=
  "Gross Production Value Agriculture (mln tenge constant prices 2015)".
Definition src_A_crops :=
  "Gross Production Value Crops ( mln tenge constant prices 2015)".
Definition src_A_livestock :=
  "Gross Production Value Livestock (mln tenge constant prices 2015 )".

Definition columns_to_use : list (string * string) :=
  [ (src_Year, "Year");
    (src_E_total, "E_total");
    (src_E_crops, "E_crops");
    (src_E_livestock, "E_livestock");
    (src_A_total, "A_total");
    (src_A_crops, "A_crops");
    (src_A_livestock, "A_livestock") ].

Definition has_column (df : frame) (name : string) : bool :=
  existsb (String.eqb name) (columns df).

(** [df[keys]]: a [KeyError] listing the names that are not columns. *)
Definition select (df : frame) (keys : list string) : outcome frame :=
  match filter (fun k => negb (has_column df k)) keys with
  | [] => Returns (mkFrame keys (records df))
  | missing => Raises (KeyError missing)
  end.

(** One selected line under its new names, the year still a float. *)
Definition renamed (rec : string -> flt) : flt * levels :=
  (rec src_Year,
   mkLevels (rec src_E_total) (rec src_E_crops) (rec src_E_livestock)
            (rec src_A_total) (rec src_A_crops) (rec src_A_livestock)).

Definition int64_min : Z := (-9223372036854775808)%Z.
Definition int64_max : Z := 9223372036854775807%Z.

(** The cast of a finite float64 to int64: truncation toward zero; a value
    beyond the int64 range comes out as the smallest int64 (what numpy's
    cast yields on x86-64, without an error). *)
Definition to_int64 (r : R) : Z :=
  let z := R_trunc r in
  if ((int64_min <=? z) && (z <=? int64_max))%Z then z else int64_min.

(** [astype(int)] on one value; pandas refuses NaN and the infinities. *)
Definition astype_int (x : flt) : outcome Z :=
  match x with
  | Fin r => Returns (to_int64 r)
  | _ => Raises IntCastingNaNError
  end.

Fixpoint cast_years (lines : list (flt * levels)) : outcome (list row) :=
  match lines with
  | [] => Returns []
  | (y, d) :: rest =>
      z <- astype_int y ;;
      rows <- cast_years rest ;;
      Returns (mkRow z d :: rows)
  end.

(** Section 2 of [run_lmdi_analysis] after [read_csv]: selection and
    renaming, [dropna] on the year, the filter [Year >= 2003], the cast. *)
Definition clean (df : frame) : outcome (list row) :=
  df <- select df (map fst columns_to_use) ;;
  let lines := map renamed (records df) in
  let lines := filter (fun l => negb (isna (fst l))) lines in
  let lines := filter (fun l => geb (fst l) (Fin 2003)) lines in
  cast_years lines.

(** [df_results.round(2)]: the year is an integer column and is kept. *)
Definition round_result (r : result) : result :=
  {| res_Year := res_Year r;
     Delta_E_Total_Actual := round2 (Delta_E_Total_Actual r);
     Effect_Activity := round2 (Effect_Activity r);
     Effect_Structure := round2 (Effect_Structure r);
     Effect_Intensity := round2 (Effect_Intensity r);
     Delta_E_Total_Calculated := round2 (Delta_E_Total_Calculated r) |}.

Inductive sheet : Type :=
| LMDI_Factors (lines : list frow)
| LMDI_Results (lines : list result).

(** The lines the function prints. *)
Inductive message : Type :=
| DataCleaned                        (* "--- Данные успешно очищены ---" *)
| FactorsSaved (filename : string)   (* "Таблица с факторами (S и I) сохранена: ..." *)
| ResultsSaved (filename : string)   (* "Итоговая таблица с LMDI-эффектами сохранена: ..." *)
| ResultsHeading                     (* "--- ИТОГОВЫЕ РЕЗУЛЬТАТЫ LMDI-АНАЛИЗА (2004-2023) ---" *)
| ResultsTable (lines : list result) (* df_results.to_markdown(index=False) *)
| FileNotFound                       (* "ОШИБКА: Файл 'date_LMDI_ARDL.csv' не найден." *)
| PleaseUpload                       (* "Пожалуйста, убедитесь, что файл ... загружен." *)
| CriticalError (e : exn).           (* f"Произошла критическая ошибка: {e}" *)

Inductive event : Type :=
| PrintLine (m : message)
| ToExcel (filename : string) (s : sheet).

(** A computation that prints and writes files, then returns or raises. *)
Definition io (A : Type) : Type := (list event * outcome A)%type.

Definition io_bind {A B : Type} (m : io A) (k : A -> io B) : io B :=
  match m with
  | (tr, Returns a) => let (tr', r) := k a in ((tr ++ tr')%list, r)
  | (tr, Raises e) => (tr, Raises e)
  end.

Definition lift {A : Type} (o : outcome A) : io A := ([], o).
Definition emit (e : event) : io unit := ([e], Returns tt).

(** [try: body except ...: handler]. *)
Definition try_except (body : io unit) (handler : exn -> io unit) : io unit :=
  match body with
  | (tr, Raises e) => let (tr', r) := handler e in ((tr ++ tr')%list, r)
  | done => done
  end.

Notation "x <~ m ;; k" := (io_bind m (fun x => k))
  (at level 61, m at next level, right associativity).
Notation "m ;;; k" := (io_bind m (fun _ => k))
  (at level 61, right associativity).

(** [pd.read_csv("date_LMDI_ARDL.csv", ...)]: [None] is an absent file. *)
Definition read_csv (file : option frame) : io frame :=
  match file with
  | Some df => lift (Returns df)
  | None => lift (Raises FileNotFoundError)
  end.

Definition factors_filename := "kazakhstan_lmdi_factors.xlsx".
Definition results_filename := "kazakhstan_lmdi_results.xlsx".

(** The [try] block. *)
Definition run_body (file : option frame) : io unit :=
  df <~ read_csv file ;;
  table <~ lift (clean df) ;;
  emit (PrintLine DataCleaned) ;;;
  let df := map add_factors table in
  emit (ToExcel factors_filename (LMDI_Factors df)) ;;;
  emit (PrintLine (FactorsSaved factors_filename)) ;;;
  let results := lmdi_results df in
  let df_results := map round_result results in
  emit (ToExcel results_filename (LMDI_Results df_results)) ;;;
  emit (PrintLine (ResultsSaved results_filename)) ;;;
  emit (PrintLine ResultsHeading) ;;;
  emit (PrintLine (ResultsTable df_results)).

(** The two [except] clauses. *)
Definition run_handler (e : exn) : io unit :=
  match e with
  | FileNotFoundError => emit (PrintLine FileNotFound) ;;; emit (PrintLine PleaseUpload)
  | _ => emit (PrintLine (CriticalError e))
  end.

Definition run_lmdi_analysis (file : option frame) : io unit :=
  try_except (run_body file) run_handler.

(** What a caller can observe of a run. *)
Definition written (tr : list event) : list string :=
  flat_map (fun e => match e with ToExcel f _ => [f] | PrintLine _ => [] end) tr.

Definition printed (tr : list event) : list message :=
  flat_map (fun e => match e with PrintLine m => [m] | ToExcel _ _ => [] end) tr.

End Lmdi.

(** ** The weight as section 4.1 words its degenerate-input policy *)

Module Stated.

Import Np Lmdi.




End Stated.

(** ** Column cleaning ([clean_column] of [src/kazakhstan_lmdi.py]) *)

Module Series.

Import Np.
Local Open Scope string_scope.

(** [.str.replace(c, '')] for a pattern of one character. *)
Fixpoint remove_char (c : ascii) (s : string) : string :=
  match s with
  | EmptyString => EmptyString
  | String a rest =>
      if Ascii.eqb a c then remove_char c rest
      else String a (remove_char c rest)
  end.

(** [.str.replace(c, d)] for a pattern and a replacement of one character. *)
Fixpoint replace_char (c d : ascii) (s : string) : string :=
  match s with
  | EmptyString => EmptyString
  | String a rest =>
      String (if Ascii.eqb a c then d else a) (replace_char c d rest)
  end.

(** The three replacements made on the text of one cell. *)
Definition clean_text (s : string) : string :=
  let cleaned := remove_char " " (remove_char "?" s) in
  replace_char "," "." cleaned.

Section Parse.

(** [pd.to_numeric(..., errors='coerce')] on one text: the number it
    denotes, NaN when it denotes none. *)
Variable to_numeric : string -> flt.

(** [series] holds the texts [astype(str)] gives. *)
Definition clean_column (series : list string) : list flt :=
  map (fun s => to_numeric (clean_text s)) series.

End Parse.

(** The characters of a text. *)
Definition chars (s : string) : list ascii := list_ascii_of_string s.

(** The three characters the cleaning deals with. *)
Definition stray (c : ascii) : Prop :=
  c = "?"%char \/ c = " "%char \/ c = ","%char.

End Series.

(** ** Notions used in the statements *)

Section TapioNotions.

Import Tapio.
Local Open Scope Q_scope.
Local Open Scope string_scope.


(** The label chosen in the branch where both rates are positive. *)
Definition growth_band (elasticity : Q) : string :=
  if negb (Qle_bool (8 # 10) elasticity) then "Weak Decoupling"
  else if Qle_bool elasticity (12 # 10) then "Coupling"
  else "Strong Coupling".

(** The label chosen in the branch where both rates are negative. *)
Definition recession_band (elasticity : Q) : string :=
  if negb (Qle_bool elasticity (12 # 10)) then "Weak Recession"
  else if Qle_bool (8 # 10) elasticity then "Coupled Recession"
  else "Strong Recession".



End TapioNotions.

Section Float64Notions.

Import Float64.
Local Open Scope string_scope.

(** The label chosen in the branch where both rates are positive. *)
Definition growth_band_f64 (elasticity : f64) : string :=
  if lt elasticity c0_8 then "Weak Decoupling"
  else if le elasticity c1_2 then "Coupling"
  else "Strong Coupling".

(** The label chosen in the branch where both rates are negative. *)
Definition recession_band_f64 (elasticity : f64) : string :=
  if gt elasticity c1_2 then "Weak Recession"
  else if ge elasticity c0_8 then "Coupled Recession"
  else "Strong Recession".

(** Some binary64 values: 4.0, 5.0, 8.0, and the two neighbours
    4.0000000000000027 and 4.8000000000000034 whose quotient rounds
    to the literal [1.2]. *)
Definition f4 : f64 := S754_finite false 4503599627370496 (-50).
Definition f5 : f64 := S754_finite false 5629499534213120 (-50).
Definition f8 : f64 := S754_finite false 4503599627370496 (-49).
Definition f4_up : f64 := S754_finite false 4503599627370499 (-50).
Definition f4_8_up : f64 := S754_finite false 5404319552844599 (-50).

End Float64Notions.

Section LmdiNotions.

Import Np Lmdi.
Local Open Scope R_scope.

(** The logarithmic mean of two positive reals. *)
Definition logmean (a b : R) : R := (a - b) / (ln a - ln b).

(** A value that the policy replaces: zero or missing. *)
Definition degenerate (v : flt) : Prop := v = Fin 0 \/ v = NaN.

(** The entry the loop appends for two given lines. *)
Definition lmdi_pair (row_t0 row_t : frow) : result :=
  let acc :=
    fold_left (sector_step row_t row_t0) sectors (mkSums zero zero zero) in
  {| res_Year := Year row_t;
     Delta_E_Total_Actual := sub (E_total row_t) (E_total row_t0);
     Effect_Activity := delta_E_activity acc;
     Effect_Structure := delta_E_structure acc;
     Effect_Intensity := delta_E_intensity acc;
     Delta_E_Total_Calculated :=
       add (add (delta_E_activity acc) (delta_E_structure acc))
           (delta_E_intensity acc) |}.

Definition positive (x : flt) : Prop :=
  match x with Fin r => 0 < r | _ => False end.

(** Strictly positive levels, the total emission being the sum of the two
    sectors' emissions. *)
Definition reconciled (r : row) : Prop :=
  positive (E_crops r) /\ positive (E_livestock r) /\
  positive (A_crops r) /\ positive (A_livestock r) /\ positive (A_total r) /\
  E_total r = add (E_crops r) (E_livestock r).

(** The statement of C9 read literally: shares and intensities of the base
    year, and the two effects of the pair, are missing values (NaN). *)
Definition propagates_missing (row_t0 row_t : row) (s : sector) : Prop :=
  let f0 := add_factors row_t0 in
  let res := lmdi_pair f0 (add_factors row_t) in
  isna (S_ s f0) = true /\ isna (I_ s f0) = true /\
  isna (Effect_Structure res) = true /\ isna (Effect_Intensity res) = true.

(** Two lines with positive levels whose totals are the sector sums. *)
Definition sample_2003 : row :=
  mkRow 2003 (mkLevels (Fin (3 + 5)) (Fin 3) (Fin 5) (Fin 10) (Fin 4) (Fin 6)).

Definition sample_2004 : row :=
  mkRow 2004 (mkLevels (Fin (4 + 7)) (Fin 4) (Fin 7) (Fin 12) (Fin 5) (Fin 7)).

Definition sample_2006 : row :=
  mkRow 2006 (mkLevels (Fin (5 + 7)) (Fin 5) (Fin 7) (Fin 13) (Fin 6) (Fin 7)).

(** Crops without output in 2003, every other level positive. *)
Definition idle_crops_2003 : row :=
  mkRow 2003 (mkLevels (Fin 2) (Fin 1) (Fin 1) (Fin 1) (Fin 0) (Fin 1)).

Definition active_crops_2004 : row :=
  mkRow 2004 (mkLevels (Fin 2) (Fin 1) (Fin 1) (Fin 2) (Fin 1) (Fin 1)).

End LmdiNotions.

Section RunNotions.

Import Np Lmdi.
Local Open Scope string_scope.

Definition required_columns : list string := map fst columns_to_use.

(** The required columns that the file does not have. *)
Definition missing_columns (df : frame) : list string :=
  filter (fun k => negb (has_column df k)) required_columns.

(** The years that survive [dropna] and the filter, cast to int64, in
    the order of the file. *)
Definition kept_years (df : frame) : list Z :=
  flat_map (fun rec =>
              match rec src_Year with
              | Fin r => if R_leb 2003 r then [to_int64 r] else []
              | _ => []
              end) (records df).

(** What a run that meets no exception prints and writes. *)
Definition complete_trace (table : list row) : list event :=
  let df := map add_factors table in
  let df_results := map round_result (lmdi_results df) in
  [ PrintLine DataCleaned;
    ToExcel factors_filename (LMDI_Factors df);
    PrintLine (FactorsSaved factors_filename);
    ToExcel results_filename (LMDI_Results df_results);
    PrintLine (ResultsSaved results_filename);
    PrintLine ResultsHeading;
    PrintLine (ResultsTable df_results) ].

(** A line of a file: the year and the six levels under the source names. *)
Definition line (year : R) (l : levels) : string -> flt :=
  fun name =>
    if String.eqb name src_Year then Fin year
    else if String.eqb name src_E_total then E_total l
    else if String.eqb name src_E_crops then E_crops l
    else if String.eqb name src_E_livestock then E_livestock l
    else if String.eqb name src_A_total then A_total l
    else if String.eqb name src_A_crops then A_crops l
    else if String.eqb name src_A_livestock then A_livestock l
    else NaN.

(** A complete file whose two years come in descending order. *)
Definition descending_file : frame :=
  let l := mkLevels (Fin 2) (Fin 1) (Fin 1) (Fin 2) (Fin 1) (Fin 1) in
  mkFrame required_columns [line 2005 l; line 2004 l].

(** A file without the livestock emission column. *)
Definition file_without_E_livestock : frame :=
  let l := mkLevels (Fin 2) (Fin 1) (Fin 1) (Fin 2) (Fin 1) (Fin 1) in
  mkFrame [src_Year; src_E_total; src_E_crops; src_A_total; src_A_crops;
           src_A_livestock]
          [line 2003 l; line 2004 l].

(** A complete file whose second line has an infinite year. *)
Definition infinite_year_file : frame :=
  let l := mkLevels (Fin 2) (Fin 1) (Fin 1) (Fin 2) (Fin 1) (Fin 1) in
  mkFrame required_columns
    [line 2003 l;
     fun name => if String.eqb name src_Year then Inf false else Fin 1].

End RunNotions.

Section FurtherNotions.

Import Np Lmdi.
Local Open Scope R_scope.



End FurtherNotions.

(* ================================================================== *)
(** * Part II.  The classifier                                          *)
(* ================================================================== *)

Section TapioFacts.

Import Tapio.
Local Open Scope Q_scope.
Local Open Scope string_scope.

Example classify_5_m2 :
  get_decoupling_status (Some 5) (Some (-2)) = Returns "Strong Decoupling".
Proof. reflexivity. Qed.

Example classify_m5_m8 :
  get_decoupling_status (Some (-5)) (Some (-8)) = Returns "Weak Recession".
Proof. reflexivity. Qed.

Example classify_5_4 :
  get_decoupling_status (Some 5) (Some 4) = Returns "Coupling".
Proof. reflexivity. Qed.

Lemma Qle_bool_false (a b : Q) : Qle_bool a b = false <-> b < a.
Proof.
  split; intros H.
  - apply Qnot_le_lt. intros Hle. apply Qle_bool_iff in Hle. congruence.
  - destruct (Qle_bool a b) eqn:E; [|reflexivity].
    apply Qle_bool_iff in E. exfalso. exact (Qlt_not_le _ _ H E).
Qed.

Lemma Qle_bool_true (a b : Q) : a <= b -> Qle_bool a b = true.
Proof. intros H. now apply Qle_bool_iff. Qed.

Lemma Qeq_bool_false (a b : Q) : ~ a == b -> Qeq_bool a b = false.
Proof.
  intros H. destruct (Qeq_bool a b) eqn:E; [|reflexivity].
  apply Qeq_bool_iff in E. contradiction.
Qed.

Lemma Qlt_neq (a b : Q) : a < b -> ~ a == b /\ ~ b == a.
Proof.
  intros H. split; intros E; rewrite E in H; exact (Qlt_irrefl _ H).
Qed.

(** Replaces the comparisons of a goal by their values, from the order
    facts among the hypotheses. *)
Ltac decide_cmp :=
  repeat match goal with
  | H : ?a < ?b |- context [Qle_bool ?b ?a] =>
      rewrite (proj2 (Qle_bool_false b a) H)
  | H : ?a < ?b |- context [Qle_bool ?a ?b] =>
      rewrite (Qle_bool_true a b (Qlt_le_weak _ _ H))
  | H : ?a <= ?b |- context [Qle_bool ?a ?b] =>
      rewrite (Qle_bool_true a b H)
  | H : ?a == ?b |- context [Qle_bool ?a ?b] =>
      rewrite (Qle_bool_true a b (proj2 (Qle_lteq a b) (or_intror H)))
  | H : ?a == ?b |- context [Qle_bool ?b ?a] =>
      rewrite (Qle_bool_true b a (proj2 (Qle_lteq b a) (or_intror (Qeq_sym _ _ H))))
  | H : ?a < ?b |- context [Qeq_bool ?a ?b] =>
      rewrite (Qeq_bool_false a b (proj1 (Qlt_neq a b H)))
  | H : ?a < ?b |- context [Qeq_bool ?b ?a] =>
      rewrite (Qeq_bool_false b a (proj2 (Qlt_neq a b H)))
  end.

Ltac status_simpl :=
  unfold get_decoupling_status, lt, ge; unfold gt, le, eq, truediv, isna, bind;
  unfold zero, c0_8, c1_2;
  cbn [orb andb negb]; decide_cmp; cbn [orb andb negb].

Lemma status_strong_decoupling (g e : Q) :
  0 < g -> e < 0 ->
  get_decoupling_status (Some g) (Some e) = Returns "Strong Decoupling".
Proof. intros Hg He. status_simpl. reflexivity. Qed.

Lemma status_strong_negative (g e : Q) :
  g < 0 -> 0 < e ->
  get_decoupling_status (Some g) (Some e) = Returns "Strong Negative Coupling".
Proof. intros Hg He. status_simpl. reflexivity. Qed.

Lemma status_gdp_zero (g e : Q) :
  g == 0 -> get_decoupling_status (Some g) (Some e) = Returns "Not Classified".
Proof.
  intros Hg. status_simpl.
  assert (H0 : 0 == g) by (symmetry; exact Hg).
  decide_cmp. cbn [orb andb negb]. reflexivity.
Qed.

Lemma status_em_zero (g e : Q) :
  e == 0 -> get_decoupling_status (Some g) (Some e) = Returns "Not Classified".
Proof.
  intros He.
  assert (H0 : 0 == e) by (symmetry; exact He).
  destruct (Q_dec g 0) as [[Hg|Hg]|Hg].
  - status_simpl. reflexivity.
  - status_simpl. reflexivity.
  - now apply status_gdp_zero.
Qed.

Lemma status_growth (g e : Q) :
  0 < g -> 0 < e ->
  get_decoupling_status (Some g) (Some e) = Returns (growth_band (e / g)).
Proof.
  intros Hg He. status_simpl. unfold growth_band.
  destruct (Qle_bool (8 # 10) (e / g)); cbn [negb]; [|reflexivity].
  destruct (Qle_bool (e / g) (12 # 10)); reflexivity.
Qed.

Lemma status_recession (g e : Q) :
  g < 0 -> e < 0 ->
  get_decoupling_status (Some g) (Some e) = Returns (recession_band (e / g)).
Proof.
  intros Hg He. status_simpl. unfold recession_band.
  destruct (Qle_bool (e / g) (12 # 10)); cbn [negb]; [|reflexivity].
  destruct (Qle_bool (8 # 10) (e / g)); reflexivity.
Qed.

Global Instance growth_band_proper : Proper (Qeq ==> Logic.eq) growth_band.
Proof.
  intros x y E. unfold growth_band.
  rewrite (Qleb_comp _ _ (Qeq_refl (8 # 10)) _ _ E).
  rewrite (Qleb_comp _ _ E _ _ (Qeq_refl (12 # 10))). reflexivity.
Qed.

Global Instance recession_band_proper : Proper (Qeq ==> Logic.eq) recession_band.
Proof.
  intros x y E. unfold recession_band.
  rewrite (Qleb_comp _ _ (Qeq_refl (8 # 10)) _ _ E).
  rewrite (Qleb_comp _ _ E _ _ (Qeq_refl (12 # 10))). reflexivity.
Qed.

End TapioFacts.

Section TapioProperties.

Import Tapio.
Local Open Scope Q_scope.
Local Open Scope string_scope.






Lemma scale_pos (k x : Q) : 0 < k -> 0 < x -> 0 < k * x.
Proof. intros Hk Hx. apply Qmult_lt_0_compat; assumption. Qed.

Lemma scale_neg (k x : Q) : 0 < k -> x < 0 -> k * x < 0.
Proof.
  intros Hk Hx. assert (H := proj2 (Qmult_lt_l x 0 k Hk) Hx).
  rewrite Qmult_0_r in H. exact H.
Qed.

Lemma scale_zero (k x : Q) : x == 0 -> k * x == 0.
Proof. intros ->. ring. Qed.

Lemma scale_ratio (k g e : Q) :
  0 < k -> ~ g == 0 -> (k * e) / (k * g) == e / g.
Proof.
  intros Hk Hg. field. split; [exact Hg|].
  intros E. rewrite E in Hk. exact (Qlt_irrefl _ Hk).
Qed.

(** C10.  Scale invariance: multiplying both rates by one strictly positive
    factor does not change the label. *)
Theorem scale_invariance (k : Q) (gdp_growth em_growth : rate) :
  0 < k ->
  get_decoupling_status (scale k gdp_growth) (scale k em_growth)
    = get_decoupling_status gdp_growth em_growth.
Proof.
  intros Hk. destruct gdp_growth as [g|], em_growth as [e|]; try reflexivity.
  cbn [scale].
  destruct (Q_dec g 0) as [[Hg|Hg]|Hg]; destruct (Q_dec e 0) as [[He|He]|He];
    try (rewrite (status_em_zero g e He),
           (status_em_zero _ _ (scale_zero k e He)); reflexivity);
    try (rewrite (status_gdp_zero g e Hg),
           (status_gdp_zero _ _ (scale_zero k g Hg)); reflexivity).
  - rewrite (status_recession _ _ Hg He),
      (status_recession _ _ (scale_neg k g Hk Hg) (scale_neg k e Hk He)).
    f_equal. apply recession_band_proper, scale_ratio; [exact Hk|].
    exact (proj1 (Qlt_neq g 0 Hg)).
  - rewrite (status_strong_negative _ _ Hg He),
      (status_strong_negative _ _ (scale_neg k g Hk Hg) (scale_pos k e Hk He)).
    reflexivity.
  - rewrite (status_strong_decoupling _ _ Hg He),
      (status_strong_decoupling _ _ (scale_pos k g Hk Hg) (scale_neg k e Hk He)).
    reflexivity.
  - rewrite (status_growth _ _ Hg He),
      (status_growth _ _ (scale_pos k g Hk Hg) (scale_pos k e Hk He)).
    f_equal. apply growth_band_proper, scale_ratio; [exact Hk|].
    exact (proj2 (Qlt_neq 0 g Hg)).
Qed.

Lemma scale_invariance_witness :
  get_decoupling_status (scale (7 # 2) (Some 3)) (scale (7 # 2) (Some (12 # 5)))
    = get_decoupling_status (Some 3) (Some (12 # 5)).
Proof. apply (scale_invariance (7 # 2) (Some 3) (Some (12 # 5))). reflexivity. Defined.

End TapioProperties.

(* ================================================================== *)
(** * Part II bis.  The classifier on binary64 values                   *)
(* ================================================================== *)

Section Float64Facts.

Import Float64.
Local Open Scope string_scope.

Lemma SFcompare_antisym (x y : f64) :
  SFcompare y x = option_map CompOpp (SFcompare x y).
Proof.
  destruct x as [sx|sx| |sx mx ex], y as [sy|sy| |sy my ey]; cbn;
    try reflexivity;
    try (destruct sx; reflexivity); try (destruct sy; reflexivity);
    try (destruct sx, sy; reflexivity).
  destruct sx, sy; cbn; try reflexivity.
  - rewrite (Z.compare_antisym ex ey).
    destruct (ex ?= ey)%Z; cbn; try reflexivity.
    change (Pos.compare_cont Eq my mx) with (Pos.compare my mx).
    change (Pos.compare_cont Eq mx my) with (Pos.compare mx my).
    now rewrite (Pos.compare_antisym mx my).
  - rewrite (Z.compare_antisym ex ey).
    destruct (ex ?= ey)%Z; cbn; try reflexivity.
    change (Pos.compare_cont Eq my mx) with (Pos.compare my mx).
    change (Pos.compare_cont Eq mx my) with (Pos.compare mx my).
    now rewrite (Pos.compare_antisym mx my).
Qed.

(** Where a value stands with respect to the two thresholds. *)
Lemma threshold_cases (x : f64) :
  (x = S754_nan /\ SFcompare x c0_8 = None /\ SFcompare x c1_2 = None) \/
  (exists a b,
     SFcompare x c0_8 = Some a /\ SFcompare x c1_2 = Some b /\
     isna x = false /\
     (a = Lt /\ b = Lt \/ a = Eq /\ b = Lt \/ a = Gt /\ b = Lt \/
      a = Gt /\ b = Eq \/ a = Gt /\ b = Gt)).
Proof.
  destruct x as [s|s| |s m e].
  - right. exists Lt, Lt. cbn. auto 10.
  - right. destruct s; [exists Lt, Lt | exists Gt, Gt]; cbn; auto 10.
  - left. auto.
  - right. destruct s.
    + exists Lt, Lt. cbn. auto 10.
    + unfold c0_8, c1_2. cbn [SFcompare isna].
      destruct (Z.compare_spec e (-53)) as [E1|E1|E1];
        destruct (Z.compare_spec e (-52)) as [E2|E2|E2]; try lia;
        do 2 eexists; (split; [reflexivity|]); (split; [reflexivity|]);
        (split; [reflexivity|]).
      * destruct (Pos.compare_cont Eq m 7205759403792794); auto 10.
      * auto 10.
      * destruct (Pos.compare_cont Eq m 5404319552844595); auto 10.
      * auto 10.
Qed.

Lemma positive_rate (x : f64) :
  gt x zero = true -> isna x = false /\ lt x zero = false /\ eq x zero = false.
Proof.
  unfold gt, lt, eq, SFltb, SFeqb. rewrite (SFcompare_antisym zero x).
  destruct x as [s|s| |s m e]; cbn; try discriminate;
    destruct s; cbn; try discriminate; auto.
Qed.

Lemma negative_rate (x : f64) :
  lt x zero = true -> isna x = false /\ gt x zero = false /\ eq x zero = false.
Proof.
  unfold gt, lt, eq, SFltb, SFeqb. rewrite (SFcompare_antisym x zero).
  destruct x as [s|s| |s m e]; cbn; try discriminate;
    destruct s; cbn; try discriminate; auto.
Qed.

Lemma status_growth_f64 (g e : f64) :
  gt g zero = true -> gt e zero = true ->
  get_decoupling_status g e = Returns (growth_band_f64 (elasticity_of g e)).
Proof.
  intros Hg He.
  destruct (positive_rate g Hg) as (Ng & Lg & Eg).
  destruct (positive_rate e He) as (Ne & Le & _).
  unfold get_decoupling_status, truediv.
  rewrite Ng, Ne, Hg, He, Le, Eg. cbn [orb andb bind].
  unfold growth_band_f64, elasticity_of.
  destruct (lt (SFdiv prec emax e g) c0_8); [reflexivity|].
  destruct (le (SFdiv prec emax e g) c1_2); reflexivity.
Qed.

Lemma status_recession_f64 (g e : f64) :
  lt g zero = true -> lt e zero = true ->
  get_decoupling_status g e = Returns (recession_band_f64 (elasticity_of g e)).
Proof.
  intros Hg He.
  destruct (negative_rate g Hg) as (Ng & Gg & Eg).
  destruct (negative_rate e He) as (Ne & Ge & _).
  unfold get_decoupling_status, truediv.
  rewrite Ng, Ne, Hg, He, Gg, Eg. cbn [orb andb bind].
  unfold recession_band_f64, elasticity_of.
  destruct (gt (SFdiv prec emax e g) c1_2); [reflexivity|].
  destruct (ge (SFdiv prec emax e g) c0_8); reflexivity.
Qed.

(** The comparisons of a value with the two thresholds, read off the
    two results of [SFcompare]. *)
Lemma threshold_tests (x : f64) (a b : option comparison) :
  SFcompare x c0_8 = a -> SFcompare x c1_2 = b ->
  lt x c0_8 = match a with Some Lt => true | _ => false end /\
  le c0_8 x = match a with Some (Gt | Eq) => true | _ => false end /\
  le x c1_2 = match b with Some (Lt | Eq) => true | _ => false end /\
  gt x c1_2 = match b with Some Gt => true | _ => false end.
Proof.
  intros Ha Hb. unfold lt, le, gt, SFltb, SFleb.
  rewrite (SFcompare_antisym x c0_8), (SFcompare_antisym x c1_2), Ha, Hb.
  destruct a as [[| |]|], b as [[| |]|]; cbn; auto.
Qed.

Ltac by_label :=
  split; intros H;
  repeat match goal with
  | H : _ /\ _ |- _ => destruct H
  | H : _ \/ _ |- _ => destruct H
  end;
  try discriminate; try reflexivity; auto.

Lemma growth_band_f64_spec (x : f64) :
  (growth_band_f64 x = "Weak Decoupling" <-> lt x c0_8 = true) /\
  (growth_band_f64 x = "Coupling" <->
     le c0_8 x = true /\ le x c1_2 = true) /\
  (growth_band_f64 x = "Strong Coupling" <->
     gt x c1_2 = true \/ isna x = true).
Proof.
  unfold growth_band_f64.
  destruct (threshold_cases x) as [(-> & Ha & Hb)|(a & b & Ha & Hb & Hn & Hab)];
    destruct (threshold_tests _ _ _ Ha Hb) as (-> & -> & -> & ->).
  - cbn. (split; [|split]); by_label.
  - rewrite Hn.
    destruct Hab as [[-> ->]|[[-> ->]|[[-> ->]|[[-> ->]|[-> ->]]]]];
      cbn; (split; [|split]); by_label.
Qed.

Lemma recession_band_f64_spec (x : f64) :
  (recession_band_f64 x = "Weak Recession" <-> gt x c1_2 = true) /\
  (recession_band_f64 x = "Coupled Recession" <->
     le c0_8 x = true /\ le x c1_2 = true) /\
  (recession_band_f64 x = "Strong Recession" <->
     lt x c0_8 = true \/ isna x = true).
Proof.
  unfold recession_band_f64. change (ge x c0_8) with (le c0_8 x).
  destruct (threshold_cases x) as [(-> & Ha & Hb)|(a & b & Ha & Hb & Hn & Hab)];
    destruct (threshold_tests _ _ _ Ha Hb) as (-> & -> & -> & ->).
  - cbn. (split; [|split]); by_label.
  - rewrite Hn.
    destruct Hab as [[-> ->]|[[-> ->]|[[-> ->]|[[-> ->]|[-> ->]]]]];
      cbn; (split; [|split]); by_label.
Qed.

Lemma returns_inj (a b : string) : Returns a = Returns b <-> a = b.
Proof. split; [intros H; now injection H | now intros ->]. Qed.

End Float64Facts.

Section Float64Properties.

Import Float64.
Local Open Scope string_scope.

(** C2 as worded fails on two infinite rates: their quotient is NaN, no
    comparison with it holds, and the classifier answers "Strong
    Coupling" (and "Strong Recession" for two negative infinities). *)
Lemma bands_fail_on_infinite_rates :
  elasticity_of plus_infinity plus_infinity = S754_nan /\
  gt (elasticity_of plus_infinity plus_infinity) c1_2 = false /\
  get_decoupling_status plus_infinity plus_infinity = Returns "Strong Coupling" /\
  get_decoupling_status minus_infinity minus_infinity = Returns "Strong Recession" /\
  ~ bands_as_stated plus_infinity plus_infinity.
Proof.
  repeat split; try reflexivity.
  intros [Hpos _].
  destruct (Hpos Logic.eq_refl Logic.eq_refl) as (_ & _ & [H _]).
  specialize (H Logic.eq_refl). discriminate H.
Qed.

(** C2, amended.  On binary64 values, with the elasticity the rounded
    quotient [em_growth / gdp_growth] and the thresholds the doubles
    nearest to 0.8 and 1.2: when both rates are positive the label is
    "Weak Decoupling" exactly when elasticity < 0.8, "Coupling" exactly
    when 0.8 <= elasticity <= 1.2 (both ends included), and "Strong
    Coupling" exactly when elasticity > 1.2 or the elasticity is NaN;
    when both are negative it is "Weak Recession" exactly when
    elasticity > 1.2, "Coupled Recession" exactly when
    0.8 <= elasticity <= 1.2, and "Strong Recession" exactly when
    elasticity < 0.8 or the elasticity is NaN. *)
Theorem elasticity_bands (gdp_growth em_growth : f64) :
  let elasticity := elasticity_of gdp_growth em_growth in
  let status := get_decoupling_status gdp_growth em_growth in
  (gt gdp_growth zero = true -> gt em_growth zero = true ->
     (status = Returns "Weak Decoupling" <-> lt elasticity c0_8 = true) /\
     (status = Returns "Coupling" <->
        le c0_8 elasticity = true /\ le elasticity c1_2 = true) /\
     (status = Returns "Strong Coupling" <->
        gt elasticity c1_2 = true \/ isna elasticity = true)) /\
  (lt gdp_growth zero = true -> lt em_growth zero = true ->
     (status = Returns "Weak Recession" <-> gt elasticity c1_2 = true) /\
     (status = Returns "Coupled Recession" <->
        le c0_8 elasticity = true /\ le elasticity c1_2 = true) /\
     (status = Returns "Strong Recession" <->
        lt elasticity c0_8 = true \/ isna elasticity = true)).
Proof.
  intros elasticity status. subst elasticity status. split; intros Hg He.
  - rewrite (status_growth_f64 _ _ Hg He). rewrite !returns_inj.
    apply growth_band_f64_spec.
  - rewrite (status_recession_f64 _ _ Hg He). rewrite !returns_inj.
    apply recession_band_f64_spec.
Qed.

Lemma elasticity_bands_witness :
  get_decoupling_status f5 f4 = Returns "Coupling" /\
  get_decoupling_status f4_up f4_8_up = Returns "Coupling" /\
  get_decoupling_status plus_infinity plus_infinity = Returns "Strong Coupling".
Proof.
  destruct (elasticity_bands f5 f4) as [Hpos _].
  destruct (Hpos Logic.eq_refl Logic.eq_refl) as (_ & Hc & _).
  destruct (elasticity_bands f4_up f4_8_up) as [Hpos' _].
  destruct (Hpos' Logic.eq_refl Logic.eq_refl) as (_ & Hc' & _).
  destruct (elasticity_bands plus_infinity plus_infinity) as [Hinf _].
  destruct (Hinf Logic.eq_refl Logic.eq_refl) as (_ & _ & Hs).
  split; [|split].
  - apply Hc. split; reflexivity.
  - apply Hc'. split; reflexivity.
  - apply Hs. right. reflexivity.
Defined.

End Float64Properties.

(* ================================================================== *)
(** * Part III.  The logarithmic-mean weight                            *)
(* ================================================================== *)

Section NpFacts.

Import Np.
Local Open Scope R_scope.

Lemma R_eqb_true (a b : R) : a = b -> R_eqb a b = true.
Proof. intros H. unfold R_eqb. destruct (Req_dec_T a b); [reflexivity|contradiction]. Qed.

Lemma R_eqb_false (a b : R) : a <> b -> R_eqb a b = false.
Proof. intros H. unfold R_eqb. destruct (Req_dec_T a b); [contradiction|reflexivity]. Qed.

Lemma R_eqb_eq (a b : R) : R_eqb a b = true <-> a = b.
Proof.
  unfold R_eqb. destruct (Req_dec_T a b); split; intros; try assumption;
    try reflexivity; try discriminate; contradiction.
Qed.

Lemma R_ltb_true (a b : R) : a < b -> R_ltb a b = true.
Proof. intros H. unfold R_ltb. destruct (Rlt_dec a b); [reflexivity|contradiction]. Qed.

Lemma R_ltb_false (a b : R) : b <= a -> R_ltb a b = false.
Proof. intros H. unfold R_ltb. destruct (Rlt_dec a b); [lra|reflexivity]. Qed.

Lemma R_leb_true (a b : R) : a <= b -> R_leb a b = true.
Proof. intros H. unfold R_leb. destruct (Rle_dec a b); [reflexivity|contradiction]. Qed.

Lemma R_leb_false (a b : R) : b < a -> R_leb a b = false.
Proof. intros H. unfold R_leb. destruct (Rle_dec a b); [lra|reflexivity]. Qed.

Lemma ln_quotient (x y : R) : 0 < x -> 0 < y -> ln (x / y) = ln x - ln y.
Proof.
  intros Hx Hy. unfold Rdiv.
  rewrite ln_mult by (try apply Rinv_0_lt_compat; assumption).
  rewrite ln_Rinv by assumption. ring.
Qed.

Lemma ln_differs (x y : R) : 0 < x -> 0 < y -> x <> y -> ln x - ln y <> 0.
Proof.
  intros Hx Hy Hne E. apply Hne, ln_inv; try assumption. lra.
Qed.

Lemma div_fin (x y : R) : y <> 0 -> div (Fin x) (Fin y) = Fin (x / y).
Proof. intros Hy. cbn. now rewrite R_eqb_false. Qed.

Lemma log_fin (x : R) : 0 < x -> log (Fin x) = Fin (ln x).
Proof.
  intros Hx. cbn. rewrite R_ltb_false by lra. rewrite R_eqb_false by lra.
  reflexivity.
Qed.

Lemma log_div_fin (x y : R) :
  0 < x -> 0 < y -> log (div (Fin x) (Fin y)) = Fin (ln x - ln y).
Proof.
  intros Hx Hy. rewrite div_fin by lra.
  rewrite log_fin by (apply Rdiv_lt_0_compat; assumption).
  now rewrite ln_quotient.
Qed.

(** *** Values that are not finite stay so *)

Lemma add_nonfinite_l (x y : flt) : isfinite x = false -> isfinite (add x y) = false.
Proof.
  destruct x as [|s|a], y as [|s'|b]; cbn; try reflexivity; try discriminate.
  intros _. destruct (Bool.eqb s s'); reflexivity.
Qed.

Lemma add_nonfinite_r (x y : flt) : isfinite y = false -> isfinite (add x y) = false.
Proof.
  destruct x as [|s|a], y as [|s'|b]; cbn; try reflexivity; try discriminate.
  intros _. destruct (Bool.eqb s s'); reflexivity.
Qed.

Lemma mul_nonfinite_r (x y : flt) : isfinite y = false -> isfinite (mul x y) = false.
Proof.
  destruct x as [|s|a], y as [|s'|b]; cbn; try reflexivity; try discriminate.
  intros _. destruct (R_eqb a 0); reflexivity.
Qed.

Lemma log_nonfinite (x : flt) : isfinite x = false -> isfinite (log x) = false.
Proof. destruct x as [|[|]|a]; cbn; try reflexivity; discriminate. Qed.

Lemma div_by_zero_nonfinite (x : flt) : isfinite (div x (Fin 0)) = false.
Proof.
  destruct x as [|s|a]; cbn; try reflexivity.
  rewrite R_eqb_true by reflexivity. destruct (R_eqb a 0); reflexivity.
Qed.

Lemma div_by_nan (x : flt) : div x NaN = NaN.
Proof. destruct x; reflexivity. Qed.

Lemma zero_div (y : flt) : div (Fin 0) y = Fin 0 \/ div (Fin 0) y = NaN.
Proof.
  destruct y as [|s|b]; cbn; auto.
  destruct (R_eqb b 0) eqn:E.
  - rewrite R_eqb_true by reflexivity. auto.
  - left. f_equal. unfold Rdiv. ring.
Qed.

Lemma div_by_nonfinite (x y : flt) :
  isfinite y = false -> div x y = Fin 0 \/ div x y = NaN.
Proof. destruct x, y; cbn; auto; discriminate. Qed.

Lemma log_zero : log (Fin 0) = Inf true.
Proof. cbn. rewrite R_ltb_false by lra. now rewrite R_eqb_true. Qed.

End NpFacts.

Create HintDb nonfinite.
#[export] Hint Resolve add_nonfinite_l add_nonfinite_r mul_nonfinite_r
  log_nonfinite div_by_zero_nonfinite : nonfinite.

Section WeightProperties.

Import Np Lmdi Stated.
Local Open Scope R_scope.

Lemma eps_pos : 0 < eps_1e_9.
Proof. unfold eps_1e_9. apply Rinv_0_lt_compat. lra. Qed.

Lemma lmdi_weight_same (v_t v_0 : flt) :
  eqb v_t v_0 = true -> lmdi_weight v_t v_0 = v_t.
Proof. intros H. unfold lmdi_weight. now rewrite H. Qed.

Lemma sub_fin (a b : R) : sub (Fin a) (Fin b) = Fin (a - b).
Proof. reflexivity. Qed.

Lemma formula_fin (a b : R) :
  0 < a -> 0 < b -> a <> b ->
  div (sub (Fin a) (Fin b)) (sub (log (Fin a)) (log (Fin b))) = Fin (logmean a b).
Proof.
  intros Ha Hb Hne. rewrite !log_fin by assumption. rewrite !sub_fin.
  rewrite div_fin by (apply ln_differs; assumption). reflexivity.
Qed.

Lemma lmdi_weight_fin (a b : R) :
  0 < a -> 0 < b -> a <> b -> lmdi_weight (Fin a) (Fin b) = Fin (logmean a b).
Proof.
  intros Ha Hb Hne. unfold lmdi_weight, zero. cbn [eqb isna orb].
  rewrite (R_eqb_false a b) by assumption.
  rewrite (R_eqb_false a 0), (R_eqb_false b 0) by lra. cbn [orb].
  now apply formula_fin.
Qed.

Lemma logmean_sym (a b : R) : logmean a b = logmean b a.
Proof.
  unfold logmean.
  destruct (Req_dec_T (ln a - ln b) 0) as [E|E].
  - replace (ln b - ln a) with 0 by lra. rewrite E. unfold Rdiv.
    rewrite Rinv_0. ring.
  - field. split; lra.
Qed.

(** Exact arithmetic.  The logarithmic mean of a strictly positive value
    with itself is that value, and the logarithmic mean of two distinct
    strictly positive values does not depend on their order.  (On
    binary64 values the second part needs the two rounded logarithms to
    differ.) *)
Theorem weight_identity_and_symmetry :
  (forall v : R, 0 < v -> lmdi_weight (Fin v) (Fin v) = Fin v) /\
  (forall a b : R, 0 < a -> 0 < b -> a <> b ->
     lmdi_weight (Fin a) (Fin b) = lmdi_weight (Fin b) (Fin a)).
Proof.
  split.
  - intros v _. apply lmdi_weight_same. cbn. now apply R_eqb_true.
  - intros a b Ha Hb Hne.
    rewrite (lmdi_weight_fin a b), (lmdi_weight_fin b a) by auto.
    f_equal. apply logmean_sym.
Qed.

Lemma weight_identity_and_symmetry_witness :
  lmdi_weight (Fin 3) (Fin 3) = Fin 3 /\
  lmdi_weight (Fin 2) (Fin 5) = lmdi_weight (Fin 5) (Fin 2).
Proof.
  split.
  - apply (proj1 weight_identity_and_symmetry 3). lra.
  - apply (proj2 weight_identity_and_symmetry 2 5); lra.
Defined.


Lemma eqb_degenerate_fin (d : flt) (x : R) :
  degenerate d -> 0 < x -> eqb d (Fin x) = false /\ eqb (Fin x) d = false.
Proof.
  intros [-> | ->] Hx; cbn; [|auto].
  rewrite (R_eqb_false 0 x), (R_eqb_false x 0) by lra. auto.
Qed.





End WeightProperties.

(* ================================================================== *)
(** * Part IV.  The decomposition loop                                  *)
(* ================================================================== *)

Section EngineFacts.

Import Np Lmdi.
Local Open Scope R_scope.

Lemma lmdi_step_pair (df : list frow) (i : nat) :
  lmdi_step df i = lmdi_pair (loc df (i - 1)) (loc df i).
Proof. reflexivity. Qed.

Lemma loc_nth_error (df : list frow) (i : nat) (r : frow) :
  nth_error df i = Some r -> loc df i = r.
Proof. intros H. unfold loc. now apply nth_error_nth. Qed.

Lemma lmdi_results_length (df : list frow) :
  List.length (lmdi_results df) = (List.length df - 1)%nat.
Proof. unfold lmdi_results. now rewrite length_map, length_seq. Qed.

Lemma lmdi_results_nth (df : list frow) (i : nat) (row_t0 row_t : frow) :
  nth_error df i = Some row_t0 -> nth_error df (S i) = Some row_t ->
  nth_error (lmdi_results df) i = Some (lmdi_pair row_t0 row_t).
Proof.
  intros H0 Ht. unfold lmdi_results.
  assert (Hlen : (S i < List.length df)%nat).
  { apply nth_error_Some. congruence. }
  rewrite nth_error_map.
  rewrite nth_error_nth' with (d := O) by (rewrite length_seq; lia).
  rewrite seq_nth by lia. cbn [option_map].
  rewrite lmdi_step_pair. replace (1 + i - 1)%nat with i by lia.
  replace (1 + i)%nat with (S i) by lia.
  now rewrite (loc_nth_error _ _ _ H0), (loc_nth_error _ _ _ Ht).
Qed.

Lemma decompose_nth (table : list row) (i : nat) (row_t0 row_t : row) :
  nth_error table i = Some row_t0 -> nth_error table (S i) = Some row_t ->
  nth_error (decompose table) i
    = Some (lmdi_pair (add_factors row_t0) (add_factors row_t)).
Proof.
  intros H0 Ht. unfold decompose. apply lmdi_results_nth.
  - rewrite nth_error_map, H0. reflexivity.
  - rewrite nth_error_map, Ht. reflexivity.
Qed.

Lemma tail_by_index {A : Type} (l : list A) (d : A) :
  map (fun i => nth i l d) (seq 1 (List.length l - 1)) = tl l.
Proof.
  destruct l as [|a l]; [reflexivity|].
  cbn [List.length tl]. replace (S (List.length l) - 1)%nat with (List.length l) by lia.
  rewrite <- seq_shift, map_map. cbn [nth].
  clear a. induction l as [|b l IH]; [reflexivity|].
  cbn [List.length seq map nth]. f_equal.
  rewrite <- seq_shift, map_map. exact IH.
Qed.

Lemma lmdi_results_years (df : list frow) :
  map res_Year (lmdi_results df) = tl (map (fun r : frow => Year r) df).
Proof.
  unfold lmdi_results. rewrite map_map. cbn [lmdi_step res_Year].
  rewrite <- (tail_by_index (map (fun r : frow => Year r) df) (Year nan_row)).
  rewrite length_map. apply map_ext. intros i. unfold loc.
  now rewrite (map_nth (fun r : frow => Year r)).
Qed.

Lemma decompose_years (table : list row) :
  map res_Year (decompose table) = tl (map Year table).
Proof.
  unfold decompose. rewrite lmdi_results_years, map_map. reflexivity.
Qed.

End EngineFacts.

Section EngineProperties.

Import Np Lmdi.
Local Open Scope R_scope.

(** C8.  Sequence length: a cleaned table of N >= 2 lines gives N - 1
    entries; their years are the years of the table without the first one,
    in the same order, hence ascending when the table's years are. *)
Theorem sequence_length (table : list row) :
  (2 <= List.length table)%nat ->
  List.length (decompose table) = (List.length table - 1)%nat /\
  map res_Year (decompose table) = tl (map Year table) /\
  (Sorted Z.lt (map Year table) -> Sorted Z.lt (map res_Year (decompose table))).
Proof.
  intros _. split; [|split].
  - unfold decompose. now rewrite lmdi_results_length, length_map.
  - apply decompose_years.
  - rewrite decompose_years. intros Hs.
    destruct (map Year table) as [|y ys]; [constructor|].
    cbn [tl]. now inversion Hs.
Qed.

Lemma sequence_length_witness :
  List.length (decompose [sample_2003; sample_2004; sample_2006]) = 2%nat /\
  map res_Year (decompose [sample_2003; sample_2004; sample_2006])
    = [2004%Z; 2006%Z].
Proof.
  destruct (sequence_length [sample_2003; sample_2004; sample_2006])
    as (Hlen & Hyears & _).
  - cbn. lia.
  - split; [exact Hlen | exact Hyears].
Defined.

Lemma weight_times_log (a b : R) :
  0 < a -> 0 < b ->
  exists w, lmdi_weight (Fin a) (Fin b) = Fin w /\ w * (ln a - ln b) = a - b.
Proof.
  intros Ha Hb. destruct (Req_dec_T a b) as [->|Hne].
  - exists b. split; [|ring].
    apply lmdi_weight_same. cbn. now apply R_eqb_true.
  - exists (logmean a b). split; [now apply lmdi_weight_fin|].
    unfold logmean. field. now apply ln_differs.
Qed.

Lemma positive_inv (x : flt) : positive x -> exists r, x = Fin r /\ 0 < r.
Proof. destruct x as [| |r]; cbn; try contradiction. intros H. now exists r. Qed.

Lemma pair_reconciles_fin (y0 yt : Z) (Ec0 El0 At0 Ac0 Al0 Ect Elt Att Act Alt : R) :
  0 < Ec0 -> 0 < El0 -> 0 < At0 -> 0 < Ac0 -> 0 < Al0 ->
  0 < Ect -> 0 < Elt -> 0 < Att -> 0 < Act -> 0 < Alt ->
  let row_t0 :=
    mkRow y0 (mkLevels (Fin (Ec0 + El0)) (Fin Ec0) (Fin El0)
                       (Fin At0) (Fin Ac0) (Fin Al0)) in
  let row_t :=
    mkRow yt (mkLevels (Fin (Ect + Elt)) (Fin Ect) (Fin Elt)
                       (Fin Att) (Fin Act) (Fin Alt)) in
  let res := lmdi_pair (add_factors row_t0) (add_factors row_t) in
  Delta_E_Total_Actual res = Fin ((Ect + Elt) - (Ec0 + El0)) /\
  add (add (Effect_Activity res) (Effect_Structure res)) (Effect_Intensity res)
    = Delta_E_Total_Actual res /\
  Delta_E_Total_Calculated res = Delta_E_Total_Actual res.
Proof.
  intros P1 P2 P3 P4 P5 Q1 Q2 Q3 Q4 Q5 row_t0 row_t res.
  destruct (weight_times_log Ect Ec0 Q1 P1) as (wc & Wc & Hc).
  destruct (weight_times_log Elt El0 Q2 P2) as (wl & Wl & Hl).
  subst res row_t0 row_t. unfold lmdi_pair, add_factors.
  cbn [fold_left sectors sector_step E_ S_ I_ base data Year
       E_total E_crops E_livestock A_total A_crops A_livestock
       S_crops S_livestock I_crops I_livestock
       delta_E_activity delta_E_structure delta_E_intensity
       Delta_E_Total_Actual Effect_Activity Effect_Structure
       Effect_Intensity Delta_E_Total_Calculated].
  rewrite Wc, Wl.
  rewrite (div_fin Act Att), (div_fin Ac0 At0), (div_fin Alt Att),
    (div_fin Al0 At0), (div_fin Ect Act), (div_fin Ec0 Ac0),
    (div_fin Elt Alt), (div_fin El0 Al0) by lra.
  rewrite !log_div_fin by (try apply Rdiv_lt_0_compat; assumption).
  rewrite !ln_quotient by assumption.
  unfold zero. cbn [mul add sub opp].
  assert (Hsum :
    0 + wc * (ln Att - ln At0) + wl * (ln Att - ln At0)
    + (0 + wc * (ln Act - ln Att - (ln Ac0 - ln At0))
         + wl * (ln Alt - ln Att - (ln Al0 - ln At0)))
    + (0 + wc * (ln Ect - ln Act - (ln Ec0 - ln Ac0))
         + wl * (ln Elt - ln Alt - (ln El0 - ln Al0)))
    = Ect + Elt + - (Ec0 + El0)).
  { transitivity (wc * (ln Ect - ln Ec0) + wl * (ln Elt - ln El0)); [ring|].
    rewrite Hc, Hl. ring. }
  repeat split; f_equal; exact Hsum.
Qed.

Lemma pair_reconciles (row_t0 row_t : row) :
  reconciled row_t0 -> reconciled row_t ->
  let res := lmdi_pair (add_factors row_t0) (add_factors row_t) in
  Delta_E_Total_Actual res = sub (E_total row_t) (E_total row_t0) /\
  isfinite (Delta_E_Total_Actual res) = true /\
  add (add (Effect_Activity res) (Effect_Structure res)) (Effect_Intensity res)
    = Delta_E_Total_Actual res /\
  Delta_E_Total_Calculated res = Delta_E_Total_Actual res.
Proof.
  destruct row_t0 as [y0 [Et0 Ec0 El0 At0 Ac0 Al0]].
  destruct row_t as [yt [Ett Ect Elt Att Act Alt]].
  unfold reconciled.
  cbn [E_total E_crops E_livestock A_total A_crops A_livestock data].
  intros (P1 & P2 & P3 & P4 & P5 & S0) (Q1 & Q2 & Q3 & Q4 & Q5 & St).
  destruct (positive_inv _ P1) as (ec0 & -> & ?).
  destruct (positive_inv _ P2) as (el0 & -> & ?).
  destruct (positive_inv _ P3) as (ac0 & -> & ?).
  destruct (positive_inv _ P4) as (al0 & -> & ?).
  destruct (positive_inv _ P5) as (at0 & -> & ?).
  destruct (positive_inv _ Q1) as (ect & -> & ?).
  destruct (positive_inv _ Q2) as (elt & -> & ?).
  destruct (positive_inv _ Q3) as (act & -> & ?).
  destruct (positive_inv _ Q4) as (alt & -> & ?).
  destruct (positive_inv _ Q5) as (att & -> & ?).
  subst Et0 Ett. cbn [add].
  destruct (pair_reconciles_fin y0 yt ec0 el0 at0 ac0 al0 ect elt att act alt)
    as (Hd & Hs & Hc); try assumption.
  split; [exact Hd|]. split; [now rewrite Hd|]. split; assumption.
Qed.

(** Exact arithmetic.  For two consecutive lines of a cleaned table whose
    levels are all strictly positive and whose total emission is the sum
    of the two sectors, the three effects add up to
    E_total(t) - E_total(t-1): the decomposition leaves no residual.  (On
    binary64 values the sum carries the rounding errors of the weights.) *)
Theorem reconciliation (table : list row) (i : nat) (row_t0 row_t : row) :
  nth_error table i = Some row_t0 ->
  nth_error table (S i) = Some row_t ->
  reconciled row_t0 -> reconciled row_t ->
  exists res,
    nth_error (decompose table) i = Some res /\
    res_Year res = Year row_t /\
    Delta_E_Total_Actual res = sub (E_total row_t) (E_total row_t0) /\
    isfinite (Delta_E_Total_Actual res) = true /\
    add (add (Effect_Activity res) (Effect_Structure res)) (Effect_Intensity res)
      = Delta_E_Total_Actual res /\
    Delta_E_Total_Calculated res = Delta_E_Total_Actual res.
Proof.
  intros H0 Ht R0 Rt.
  exists (lmdi_pair (add_factors row_t0) (add_factors row_t)).
  split; [now apply decompose_nth|]. split; [reflexivity|].
  now apply pair_reconciles.
Qed.

Lemma reconciliation_witness :
  exists res,
    nth_error (decompose [sample_2003; sample_2004]) 0 = Some res /\
    add (add (Effect_Activity res) (Effect_Structure res)) (Effect_Intensity res)
      = Fin (4 + 7 + - (3 + 5)).
Proof.
  destruct (reconciliation [sample_2003; sample_2004] 0 sample_2003 sample_2004)
    as (res & Hn & _ & Hd & _ & Hs & _).
  - reflexivity.
  - reflexivity.
  - unfold reconciled, sample_2003; cbn. repeat split; lra.
  - unfold reconciled, sample_2004; cbn. repeat split; lra.
  - exists res. split; [exact Hn|]. rewrite Hs, Hd. reflexivity.
Defined.

(** *** A sector without activity in the base year *)

Lemma structure_term_nonfinite (w S_i_t total_t0 : flt) :
  isfinite (mul w (log (div S_i_t (div (Fin 0) total_t0)))) = false.
Proof.
  apply mul_nonfinite_r, log_nonfinite.
  destruct (zero_div total_t0) as [-> | ->].
  - apply div_by_zero_nonfinite.
  - now rewrite div_by_nan.
Qed.

Lemma intensity_term_nonfinite (w I_i_t E_i_t0 : flt) :
  isfinite (mul w (log (div I_i_t (div E_i_t0 (Fin 0))))) = false.
Proof.
  apply mul_nonfinite_r.
  destruct (div_by_nonfinite I_i_t (div E_i_t0 (Fin 0))
              (div_by_zero_nonfinite E_i_t0)) as [-> | ->].
  - now rewrite log_zero.
  - reflexivity.
Qed.

Lemma zero_div_exact (y : flt) :
  (y = Fin 0 \/ y = NaN -> div (Fin 0) y = NaN) /\
  (y <> Fin 0 -> y <> NaN -> div (Fin 0) y = Fin 0).
Proof.
  destruct y as [|sg|b]; split.
  - reflexivity.
  - intros _ H. now contradiction H.
  - intros [H|H]; discriminate H.
  - reflexivity.
  - intros [H|H]; [|discriminate H]. injection H as ->. cbn.
    now rewrite R_eqb_true.
  - intros H _. cbn. rewrite R_eqb_false.
    + f_equal. unfold Rdiv. ring.
    + intros ->. now apply H.
Qed.

Lemma zero_base_pair (row_t0 row_t : row) (s : sector) :
  A_ s (add_factors row_t0) = Fin 0 ->
  let f0 := add_factors row_t0 in
  let res := lmdi_pair f0 (add_factors row_t) in
  (A_total row_t0 = Fin 0 \/ A_total row_t0 = NaN -> S_ s f0 = NaN) /\
  (A_total row_t0 <> Fin 0 -> A_total row_t0 <> NaN -> S_ s f0 = Fin 0) /\
  isfinite (I_ s f0) = false /\
  isfinite (Effect_Structure res) = false /\
  isfinite (Effect_Intensity res) = false.
Proof.
  intros HA f0 res. subst f0 res. unfold lmdi_pair.
  cbn [fold_left sectors Effect_Structure Effect_Intensity].
  destruct (zero_div_exact (A_total row_t0)) as [Z1 Z2].
  destruct s; cbn [A_ add_factors base] in HA;
    cbn [sector_step delta_E_structure delta_E_intensity S_ I_ E_ add_factors
         S_crops S_livestock I_crops I_livestock base];
    rewrite HA.
  - split; [exact Z1|]. split; [exact Z2|].
    split; [apply div_by_zero_nonfinite|].
    split; apply add_nonfinite_l;
      auto using structure_term_nonfinite, intensity_term_nonfinite
        with nonfinite.
  - split; [exact Z1|]. split; [exact Z2|].
    split; [apply div_by_zero_nonfinite|].
    split;
      auto using structure_term_nonfinite, intensity_term_nonfinite
        with nonfinite.
Qed.

Ltac R_decide :=
  repeat match goal with
  | |- context [R_eqb ?a ?b] =>
      first [ rewrite (R_eqb_true a b) by lra
            | rewrite (R_eqb_false a b) by lra ]
  | |- context [R_ltb ?a ?b] =>
      first [ rewrite (R_ltb_true a b) by lra
            | rewrite (R_ltb_false a b) by lra ]
  end.

(** C9 as worded fails where crops have no output in the base year and
    every other level is positive: the base-year share is the number 0, the
    base-year intensity is +inf, and the two effects are +inf and -inf;
    none of the four is a missing value. *)
Lemma zero_base_not_missing :
  A_ crops (add_factors idle_crops_2003) = Fin 0 /\
  S_ crops (add_factors idle_crops_2003) = Fin 0 /\
  I_ crops (add_factors idle_crops_2003) = Inf false /\
  Effect_Structure
    (lmdi_pair (add_factors idle_crops_2003) (add_factors active_crops_2004))
    = Inf false /\
  Effect_Intensity
    (lmdi_pair (add_factors idle_crops_2003) (add_factors active_crops_2004))
    = Inf true /\
  ~ propagates_missing idle_crops_2003 active_crops_2004 crops.
Proof.
  assert (HS : S_ crops (add_factors idle_crops_2003) = Fin 0).
  { cbn. R_decide. f_equal. lra. }
  assert (HI : I_ crops (add_factors idle_crops_2003) = Inf false).
  { cbn. R_decide. reflexivity. }
  assert (HW : lmdi_weight (Fin 1) (Fin 1) = Fin 1).
  { apply lmdi_weight_same. cbn. now apply R_eqb_true. }
  assert (HSl : exists x, log (div (Fin (1 / 2)) (Fin (1 / 1))) = Fin x).
  { eexists. apply log_div_fin; lra. }
  assert (HIl : exists x, log (div (Fin (1 / 1)) (Fin (1 / 1))) = Fin x).
  { eexists. apply log_div_fin; lra. }
  destruct HSl as (xs & HSl). destruct HIl as (xi & HIl).
  assert (HES : Effect_Structure
            (lmdi_pair (add_factors idle_crops_2003)
                       (add_factors active_crops_2004)) = Inf false).
  { unfold lmdi_pair, idle_crops_2003, active_crops_2004, add_factors.
    cbn [fold_left sectors sector_step E_ S_ I_ base data Year
         E_total E_crops E_livestock A_total A_crops A_livestock
         S_crops S_livestock I_crops I_livestock
         delta_E_activity delta_E_structure delta_E_intensity
         Effect_Structure].
    rewrite HW. rewrite (div_fin 1 2), (div_fin 1 1), (div_fin 0 1) by lra.
    rewrite HSl. replace (0 / 1) with 0 by lra.
    unfold zero. cbn [div]. R_decide. cbn [log mul add xorb].
    R_decide. reflexivity. }
  assert (HEI : Effect_Intensity
            (lmdi_pair (add_factors idle_crops_2003)
                       (add_factors active_crops_2004)) = Inf true).
  { unfold lmdi_pair, idle_crops_2003, active_crops_2004, add_factors.
    cbn [fold_left sectors sector_step E_ S_ I_ base data Year
         E_total E_crops E_livestock A_total A_crops A_livestock
         S_crops S_livestock I_crops I_livestock
         delta_E_activity delta_E_structure delta_E_intensity
         Effect_Intensity].
    rewrite HW. rewrite (div_fin 1 1) by lra. rewrite HIl.
    unfold zero. cbn [div]. R_decide. cbn [div]. rewrite log_zero.
    cbn [mul add xorb]. R_decide. reflexivity. }
  repeat split; try assumption.
  unfold propagates_missing. cbv zeta. rewrite HS. cbn [isna].
  intros (H & _). discriminate.
Qed.

(** C9, amended.  When a sector has no output in the base year, its
    base-year share is 0, and NaN only when the total output of that year
    is itself zero or missing; its base-year intensity is an infinity or
    NaN; the structure and intensity effects of the pair are not finite
    numbers (an infinity or NaN, not necessarily a missing value), so
    neither is ever reported as a zero. *)
Theorem zero_base_activity (table : list row) (i : nat) (row_t0 row_t : row)
    (s : sector) :
  nth_error table i = Some row_t0 ->
  nth_error table (S i) = Some row_t ->
  A_ s (add_factors row_t0) = Fin 0 ->
  exists res,
    nth_error (decompose table) i = Some res /\
    (A_total row_t0 = Fin 0 \/ A_total row_t0 = NaN ->
       S_ s (add_factors row_t0) = NaN) /\
    (A_total row_t0 <> Fin 0 -> A_total row_t0 <> NaN ->
       S_ s (add_factors row_t0) = Fin 0) /\
    isfinite (I_ s (add_factors row_t0)) = false /\
    isfinite (Effect_Structure res) = false /\
    isfinite (Effect_Intensity res) = false /\
    Effect_Structure res <> Fin 0 /\ Effect_Intensity res <> Fin 0.
Proof.
  intros H0 Ht HA.
  exists (lmdi_pair (add_factors row_t0) (add_factors row_t)).
  split; [now apply decompose_nth|].
  destruct (zero_base_pair row_t0 row_t s HA) as (HS1 & HS2 & HI & H1 & H2).
  repeat split; try assumption.
  - intros E. rewrite E in H1. discriminate.
  - intros E. rewrite E in H2. discriminate.
Qed.

Lemma zero_base_activity_witness :
  exists res,
    nth_error (decompose [idle_crops_2003; active_crops_2004]) 0 = Some res /\
    S_ crops (add_factors idle_crops_2003) = Fin 0 /\
    isfinite (Effect_Structure res) = false /\
    isfinite (Effect_Intensity res) = false.
Proof.
  destruct (zero_base_activity [idle_crops_2003; active_crops_2004] 0
              idle_crops_2003 active_crops_2004 crops)
    as (res & Hn & _ & HS & _ & H1 & H2 & _).
  - reflexivity.
  - reflexivity.
  - reflexivity.
  - exists res. split; [exact Hn|]. split; [|auto].
    apply HS; cbn; intros E; [injection E as E; lra | discriminate E].
Defined.

End EngineProperties.

(* ================================================================== *)
(** * Part V.  The run and its errors                                   *)
(* ================================================================== *)

Section RunFacts.

Import Np Lmdi.
Local Open Scope string_scope.

Lemma missing_columns_spec (df : frame) (c : string) :
  In c (missing_columns df) <-> In c required_columns /\ has_column df c = false.
Proof.
  unfold missing_columns. rewrite filter_In.
  destruct (has_column df c); cbn; intuition congruence.
Qed.

Lemma clean_missing_column (df : frame) :
  missing_columns df <> [] -> clean df = Raises (KeyError (missing_columns df)).
Proof.
  intros H. unfold clean, select.
  change (filter _ (map fst columns_to_use)) with (missing_columns df).
  destruct (missing_columns df) as [|c l]; [contradiction|]. reflexivity.
Qed.

Lemma run_missing_column (df : frame) :
  missing_columns df <> [] ->
  run_lmdi_analysis (Some df)
    = ([PrintLine (CriticalError (KeyError (missing_columns df)))], Returns tt).
Proof.
  intros H. unfold run_lmdi_analysis, run_body, read_csv, lift.
  cbn [io_bind app]. rewrite (clean_missing_column df H). reflexivity.
Qed.

Lemma run_clean (df : frame) (table : list row) :
  clean df = Returns table ->
  run_lmdi_analysis (Some df) = (complete_trace table, Returns tt).
Proof.
  intros H. unfold run_lmdi_analysis, run_body, read_csv, lift.
  cbn [io_bind app]. rewrite H. reflexivity.
Qed.

Lemma cast_years_kept (recs : list (string -> flt)) :
  (forall rec, In rec recs -> rec src_Year <> Inf false) ->
  exists table,
    cast_years
      (filter (fun l => geb (fst l) (Fin 2003))
         (filter (fun l => negb (isna (fst l))) (map renamed recs)))
      = Returns table /\
    map Year table
      = flat_map (fun rec =>
                    match rec src_Year with
                    | Fin r => if R_leb 2003 r then [to_int64 r] else []
                    | _ => []
                    end) recs.
Proof.
  induction recs as [|rec recs IH]; intros Hy.
  - exists []. split; reflexivity.
  - destruct IH as (table & Hc & Hm).
    { intros r Hr. apply Hy. now right. }
    assert (Hrec := Hy rec (or_introl Logic.eq_refl)).
    assert (Hfst : fst (renamed rec) = rec src_Year) by reflexivity.
    cbn [map filter flat_map]. rewrite Hfst.
    destruct (rec src_Year) as [|[|]|r] eqn:E; cbn [isna negb filter app];
      rewrite ?Hfst, ?E; cbn [geb].
    + exists table. split; assumption.
    + exists table. split; assumption.
    + contradiction.
    + destruct (R_leb 2003 r).
      * exists (mkRow (to_int64 r) (snd (renamed rec)) :: table).
        cbn [cast_years]. destruct (renamed rec) as [y d] eqn:Er.
        cbn [fst] in Hfst. subst y.
        cbn [astype_int bind]. rewrite Hc. cbn [bind map Year app snd].
        split; [reflexivity | now rewrite Hm].
      * exists table. split; assumption.
Qed.

Lemma clean_kept_years (df : frame) :
  missing_columns df = [] ->
  (forall rec, In rec (records df) -> rec src_Year <> Inf false) ->
  exists table, clean df = Returns table /\ map Year table = kept_years df.
Proof.
  intros Hm Hy. unfold clean, select.
  change (filter _ (map fst columns_to_use)) with (missing_columns df).
  rewrite Hm. cbn [bind records].
  apply cast_years_kept, Hy.
Qed.

Lemma R_trunc_IZR (z : Z) : R_trunc (IZR z) = z.
Proof.
  unfold R_trunc. destruct (Rle_dec 0 (IZR z)).
  - apply ZfloorZ.
  - unfold Zceil. rewrite ZfloorNZ. lia.
Qed.

Lemma to_int64_IZR (z : Z) :
  (int64_min <= z <= int64_max)%Z -> to_int64 (IZR z) = z.
Proof.
  intros [Hlo Hhi]. unfold to_int64. rewrite R_trunc_IZR.
  apply Z.leb_le in Hlo, Hhi. now rewrite Hlo, Hhi.
Qed.

Lemma descending_file_years : kept_years descending_file = [2005%Z; 2004%Z].
Proof.
  unfold kept_years, descending_file. cbn [records flat_map app].
  change (line 2005 _ src_Year) with (Fin 2005).
  change (line 2004 _ src_Year) with (Fin 2004).
  cbn iota. rewrite !R_leb_true by lra.
  rewrite !to_int64_IZR by (unfold int64_min, int64_max; lia). reflexivity.
Qed.

Lemma descending_file_complete :
  missing_columns descending_file = [] /\
  (forall rec, In rec (records descending_file) -> rec src_Year <> Inf false).
Proof.
  split; [reflexivity|].
  intros rec [<-|[<-|[]]]; discriminate.
Qed.

Lemma run_raises (df : frame) (e : exn) :
  clean df = Raises e -> run_lmdi_analysis (Some df) = run_handler e.
Proof.
  intros H. unfold run_lmdi_analysis, run_body, read_csv, lift.
  cbn [io_bind app]. rewrite H. cbn [io_bind try_except].
  destruct (run_handler e) as [tr r]. reflexivity.
Qed.

Lemma cast_years_infinite (lines : list (flt * levels)) :
  (exists l, In l lines /\ fst l = Inf false) ->
  cast_years lines = Raises IntCastingNaNError.
Proof.
  induction lines as [|[y d] lines IH]; intros (l & Hin & Hl).
  - destruct Hin.
  - cbn [cast_years]. destruct y as [| |r]; try reflexivity.
    cbn [astype_int bind]. rewrite IH; [reflexivity|].
    destruct Hin as [<-|Hin]; [discriminate Hl|]. now exists l.
Qed.

Lemma clean_infinite_year (df : frame) :
  missing_columns df = [] ->
  (exists rec, In rec (records df) /\ rec src_Year = Inf false) ->
  clean df = Raises IntCastingNaNError.
Proof.
  intros Hm (rec & Hin & Hy). unfold clean, select.
  change (filter _ (map fst columns_to_use)) with (missing_columns df).
  rewrite Hm. cbn [bind records]. apply cast_years_infinite.
  exists (renamed rec). split; [|exact Hy].
  apply filter_In. split.
  - apply filter_In. split; [now apply in_map|].
    change (fst (renamed rec)) with (rec src_Year). now rewrite Hy.
  - change (fst (renamed rec)) with (rec src_Year). now rewrite Hy.
Qed.

End RunFacts.

Section RunProperties.

Import Np Lmdi.
Local Open Scope string_scope.

(** C3 as worded fails on a complete file whose years are 2005 then 2004:
    the run meets no error, returns normally, writes both output files and
    decomposes the pair in the order given. *)
Lemma unordered_years_accepted :
  ~ Sorted Z.lt (kept_years descending_file) /\
  exists table,
    map Year table = [2005%Z; 2004%Z] /\
    map res_Year (decompose table) = [2004%Z] /\
    run_lmdi_analysis (Some descending_file)
      = (complete_trace table, Returns tt) /\
    written (complete_trace table) = [factors_filename; results_filename] /\
    forall e, ~ In (CriticalError e) (printed (complete_trace table)).
Proof.
  split.
  - rewrite descending_file_years. intros H.
    inversion H as [|a l _ Hd]; subst. inversion Hd as [|b l' Hlt]; subst. lia.
  - destruct descending_file_complete as (Hm & Hy).
    destruct (clean_kept_years descending_file Hm Hy) as (table & Hc & Hk).
    rewrite descending_file_years in Hk.
    exists table. split; [exact Hk|]. split; [|split; [|split]].
    + rewrite decompose_years, Hk. reflexivity.
    + now apply run_clean.
    + reflexivity.
    + intros e. cbn. intros H.
      repeat (destruct H as [H|H]; [discriminate|]). exact H.
Qed.

(** C3, amended.  When a required column is absent the [KeyError] is caught
    by the function's own handler: the run prints one critical-error line
    carrying exactly the missing column names, writes no file and returns
    normally.  The order of the years is not checked: when every column is
    there and no year is +inf, the run completes, writes both files, and
    the lines are paired in the order of the file.  When every column is
    there and some year is +inf, the cast to integers raises: the run
    prints one critical-error line, writes no file and returns normally. *)
Theorem structural_errors (df : frame) :
  (missing_columns df <> [] ->
     run_lmdi_analysis (Some df)
       = ([PrintLine (CriticalError (KeyError (missing_columns df)))], Returns tt) /\
     written (fst (run_lmdi_analysis (Some df))) = [] /\
     forall c, In c (missing_columns df) <->
               In c required_columns /\ has_column df c = false) /\
  (missing_columns df = [] ->
   (forall rec, In rec (records df) -> rec src_Year <> Inf false) ->
     exists table,
       clean df = Returns table /\
       map Year table = kept_years df /\
       map res_Year (decompose table) = tl (kept_years df) /\
       run_lmdi_analysis (Some df) = (complete_trace table, Returns tt) /\
       written (fst (run_lmdi_analysis (Some df)))
         = [factors_filename; results_filename]) /\
  (missing_columns df = [] ->
   (exists rec, In rec (records df) /\ rec src_Year = Inf false) ->
     run_lmdi_analysis (Some df)
       = ([PrintLine (CriticalError IntCastingNaNError)], Returns tt)).
Proof.
  split; [|split].
  - intros H. rewrite (run_missing_column df H).
    split; [reflexivity|]. split; [reflexivity|].
    apply missing_columns_spec.
  - intros Hm Hy.
    destruct (clean_kept_years df Hm Hy) as (table & Hc & Hk).
    exists table. rewrite (run_clean df table Hc).
    repeat split; try assumption.
    rewrite decompose_years, Hk. reflexivity.
  - intros Hm Hinf.
    now rewrite (run_raises df _ (clean_infinite_year df Hm Hinf)).
Qed.

Lemma structural_errors_witness :
  run_lmdi_analysis (Some file_without_E_livestock)
    = ([PrintLine (CriticalError (KeyError [src_E_livestock]))], Returns tt) /\
  (exists table,
     clean descending_file = Returns table /\
     map Year table = kept_years descending_file) /\
  run_lmdi_analysis (Some infinite_year_file)
    = ([PrintLine (CriticalError IntCastingNaNError)], Returns tt).
Proof.
  split; [|split].
  - destruct (structural_errors file_without_E_livestock) as [Hmiss _].
    destruct Hmiss as (Hrun & _ & _); [discriminate|]. exact Hrun.
  - destruct (structural_errors descending_file) as (_ & Hok & _).
    destruct Hok as (table & Hc & Hk & _).
    + reflexivity.
    + intros rec [<-|[<-|[]]]; discriminate.
    + exists table. split; assumption.
  - destruct (structural_errors infinite_year_file) as (_ & _ & Hinf).
    apply Hinf; [reflexivity|].
    eexists. split; [right; left; reflexivity | reflexivity].
Defined.

End RunProperties.

(* ================================================================== *)
(** * Part VI.  Further properties of the classifier                    *)
(* ================================================================== *)

Section TapioFurther.

Import Tapio.
Local Open Scope Q_scope.
Local Open Scope string_scope.










End TapioFurther.

Section Float64Further.

Import Float64.
Local Open Scope string_scope.

Lemma opp_of_positive (x : f64) : gt x zero = true -> lt (SFopp x) zero = true.
Proof.
  unfold gt, lt, SFltb.
  destruct x as [sg|sg| |sg m e]; cbn; try discriminate;
    destruct sg; cbn; auto; discriminate.
Qed.

Lemma elasticity_of_opp (g e : f64) :
  elasticity_of (SFopp g) (SFopp e) = elasticity_of g e.
Proof.
  unfold elasticity_of, SFdiv, SFopp.
  destruct g as [sg|sg| |sg mg eg], e as [se|se| |se me ee];
    try reflexivity; now rewrite xorb_negb_negb.
Qed.

(** X2.  Recession mirrors growth, on binary64 values: when both rates are
    positive and their quotient is not NaN (they are not both infinite),
    changing the sign of both keeps the elasticity and exchanges the
    labels band by band: "Weak Decoupling" with "Strong Recession",
    "Coupling" with "Coupled Recession", "Strong Coupling" with "Weak
    Recession". *)
Theorem recession_mirrors_growth (g e : f64) :
  gt g zero = true -> gt e zero = true ->
  isna (elasticity_of g e) = false ->
  let up := get_decoupling_status g e in
  let down := get_decoupling_status (SFopp g) (SFopp e) in
  (up = Returns "Weak Decoupling" <-> down = Returns "Strong Recession") /\
  (up = Returns "Coupling" <-> down = Returns "Coupled Recession") /\
  (up = Returns "Strong Coupling" <-> down = Returns "Weak Recession").
Proof.
  intros Hg He Hn up down. subst up down.
  rewrite (status_growth_f64 _ _ Hg He).
  rewrite (status_recession_f64 _ _ (opp_of_positive g Hg) (opp_of_positive e He)).
  rewrite elasticity_of_opp, !returns_inj.
  destruct (growth_band_f64_spec (elasticity_of g e)) as (G1 & G2 & G3).
  destruct (recession_band_f64_spec (elasticity_of g e)) as (R1 & R2 & R3).
  rewrite G1, G2, G3, R1, R2, R3, Hn.
  split; [|split]; split; intros H; auto;
    destruct H as [H|H]; auto; discriminate H.
Qed.

Lemma recession_mirrors_growth_witness :
  get_decoupling_status f5 f8 = Returns "Strong Coupling" <->
  get_decoupling_status (SFopp f5) (SFopp f8) = Returns "Weak Recession".
Proof.
  destruct (recession_mirrors_growth f5 f8) as (_ & _ & H).
  - reflexivity.
  - reflexivity.
  - reflexivity.
  - exact H.
Defined.

End Float64Further.

(* ================================================================== *)
(** * Part VII.  Further properties of the weight                       *)
(* ================================================================== *)

Section WeightFurther.

Import Np Lmdi.
Local Open Scope R_scope.




Lemma log_negative (a : R) : a < 0 -> log (Fin a) = NaN.
Proof. intros Ha. cbn. now rewrite R_ltb_true. Qed.

Lemma add_nan_r (x : flt) : add x NaN = NaN.
Proof. destruct x; reflexivity. Qed.

Lemma eqb_fin_other (a : R) (v : flt) :
  v <> Fin a -> eqb (Fin a) v = false /\ eqb v (Fin a) = false.
Proof.
  intros H. destruct v as [| |b]; cbn; auto.
  assert (a <> b) by (intros ->; now apply H).
  rewrite (R_eqb_false a b), (R_eqb_false b a) by auto. auto.
Qed.

(** X7.  A negative level poisons the weight: when one value is a negative
    number and the other is anything different from it, the weight is
    NaN, on whichever side the negative value stands. *)
Theorem weight_of_negative (a : R) (v : flt) :
  a < 0 -> v <> Fin a ->
  lmdi_weight (Fin a) v = NaN /\ lmdi_weight v (Fin a) = NaN.
Proof.
  intros Ha Hv. destruct (eqb_fin_other a v Hv) as [E1 E2].
  unfold lmdi_weight. rewrite E1, E2. unfold zero. cbn [eqb isna orb].
  rewrite (R_eqb_false a 0) by lra. cbn [orb].
  rewrite (log_negative a Ha). unfold sub at 2 4. cbn [opp add].
  rewrite add_nan_r. rewrite !div_by_nan. auto.
Qed.

Lemma weight_of_negative_witness :
  lmdi_weight (Fin (-3)) (Fin 2) = NaN /\ lmdi_weight (Fin 2) (Fin (-3)) = NaN.
Proof.
  apply (weight_of_negative (-3) (Fin 2)); [lra|].
  intros E. injection E as E. lra.
Defined.

(** X8.  Where the substitution leaves two equal values the division is
    zero by zero: a zero or missing value paired with a missing value, or
    with [1e-9] itself, gives NaN. *)
Theorem weight_zero_by_zero (d : flt) :
  degenerate d ->
  lmdi_weight d NaN = NaN /\ lmdi_weight NaN d = NaN /\
  lmdi_weight d (Fin eps_1e_9) = NaN /\ lmdi_weight (Fin eps_1e_9) d = NaN.
Proof.
  intros Hd. pose proof eps_pos as He.
  assert (F : div (sub (Fin eps_1e_9) (Fin eps_1e_9))
                  (sub (log (Fin eps_1e_9)) (log (Fin eps_1e_9))) = NaN).
  { rewrite (log_fin _ He), !sub_fin. cbn [div].
    rewrite !R_eqb_true by lra. reflexivity. }
  destruct Hd as [-> | ->]; unfold lmdi_weight, zero; cbn [eqb isna orb];
    rewrite ?(R_eqb_true 0 0), ?(R_eqb_false 0 eps_1e_9),
      ?(R_eqb_false eps_1e_9 0) by lra;
    cbn [orb]; rewrite ?F; auto.
Qed.

Lemma weight_zero_by_zero_witness :
  lmdi_weight (Fin 0) NaN = NaN /\ lmdi_weight (Fin 0) (Fin eps_1e_9) = NaN.
Proof.
  destruct (weight_zero_by_zero (Fin 0)) as (H1 & _ & H2 & _).
  - left. reflexivity.
  - split; assumption.
Defined.

End WeightFurther.

(* ================================================================== *)
(** * Part VIII.  Further properties of the decomposition               *)
(* ================================================================== *)

Section EngineFurther.

Import Np Lmdi.
Local Open Scope R_scope.



Lemma decompose_short (r : row) : decompose [] = [] /\ decompose [r] = [].
Proof. split; reflexivity. Qed.

Lemma lmdi_step_shift (a : frow) (df : list frow) (i : nat) :
  lmdi_step (a :: df) (S (S i)) = lmdi_step df (S i).
Proof.
  unfold lmdi_step, loc. cbn [Nat.sub nth]. rewrite Nat.sub_0_r. reflexivity.
Qed.

Lemma lmdi_results_cons (a b : frow) (df : list frow) :
  lmdi_results (a :: b :: df) = lmdi_pair a b :: lmdi_results (b :: df).
Proof.
  unfold lmdi_results. cbn [List.length].
  replace (S (S (List.length df)) - 1)%nat with (S (List.length df)) by lia.
  replace (S (List.length df) - 1)%nat with (List.length df) by lia.
  cbn [seq map]. f_equal.
  rewrite <- seq_shift, map_map. apply map_ext_in.
  intros i Hi. apply in_seq in Hi. destruct i as [|i]; [lia|].
  apply lmdi_step_shift.
Qed.

Lemma decompose_cons (a b : row) (table : list row) :
  decompose (a :: b :: table)
    = lmdi_pair (add_factors a) (add_factors b) :: decompose (b :: table).
Proof. unfold decompose. cbn [map]. apply lmdi_results_cons. Qed.

(** X9.  The series can be cut at any line: decomposing the part up to
    that line and the part from that line on, and putting the entries one
    after the other, gives the entries of the whole series. *)
Theorem decompose_app (before after : list row) (r : row) :
  decompose (before ++ r :: after)
    = decompose (before ++ [r]) ++ decompose (r :: after).
Proof.
  induction before as [|a before IH]; [reflexivity|].
  destruct before as [|b before].
  - cbn [app]. destruct after as [|c after].
    + reflexivity.
    + rewrite decompose_cons. reflexivity.
  - cbn [app] in *. rewrite !decompose_cons. rewrite IH. reflexivity.
Qed.



End EngineFurther.

(* ================================================================== *)
(** * Part IX.  Further properties of the run                           *)
(* ================================================================== *)

Section RunFurther.

Import Np Lmdi.
Local Open Scope string_scope.

Lemma run_absent :
  run_lmdi_analysis None
    = ([PrintLine FileNotFound; PrintLine PleaseUpload], Returns tt).
Proof. reflexivity. Qed.

(** X18.  The run never raises and its output is all or nothing: whatever
    the input file (absent, incomplete, with unusable years), the call
    returns normally; either it prints an error (the two lines about the
    absent file, or one critical-error line) and writes no file, or it
    prints no error and writes the factor file and then the result file. *)
Theorem run_all_or_nothing (file : option frame) :
  exists tr,
    run_lmdi_analysis file = (tr, Returns tt) /\
    ((written tr = [] /\
      (tr = [PrintLine FileNotFound; PrintLine PleaseUpload] \/
       exists e, tr = [PrintLine (CriticalError e)])) \/
     (written tr = [factors_filename; results_filename] /\
      exists df table,
        file = Some df /\ clean df = Returns table /\ tr = complete_trace table)).
Proof.
  destruct file as [df|].
  - destruct (clean df) as [table|e] eqn:Hc.
    + exists (complete_trace table). split; [now apply run_clean|].
      right. split; [reflexivity|]. exists df, table. auto.
    + rewrite (run_raises df e Hc).
      destruct e; eexists; (split; [reflexivity|]); left;
        (split; [reflexivity|]); first [left; reflexivity | right; eexists; reflexivity].
  - rewrite run_absent. eexists. split; [reflexivity|]. left. auto.
Qed.

Lemma to_int64_from_2003 (r : R) :
  (2003 <= r)%R -> (2003 <= to_int64 r)%Z \/ to_int64 r = int64_min.
Proof.
  intros Hr. unfold to_int64.
  destruct ((int64_min <=? R_trunc r) && (R_trunc r <=? int64_max))%Z;
    [left | right; reflexivity].
  unfold R_trunc. destruct (Rle_dec 0 r) as [H0|H0].
  - now apply Zfloor_lub.
  - exfalso. apply H0. lra.
Qed.

Lemma cast_years_bound (lines : list (flt * levels)) (table : list row) :
  cast_years lines = Returns table ->
  Forall (fun l => geb (fst l) (Fin 2003) = true) lines ->
  Forall (fun r => (2003 <= Year r)%Z \/ Year r = int64_min) table /\
  List.length table = List.length lines.
Proof.
  revert table. induction lines as [|[y d] lines IH]; intros table Hc Hall.
  - injection Hc as <-. split; [constructor|reflexivity].
  - inversion Hall as [|? ? Hy Hrest]; subst. cbn [fst] in Hy.
    cbn [cast_years] in Hc. destruct y as [| |r]; try discriminate Hc.
    cbn [astype_int bind] in Hc.
    destruct (cast_years lines) as [rows|e] eqn:Hl; [|discriminate Hc].
    cbn [bind] in Hc. injection Hc as <-.
    destruct (IH rows Logic.eq_refl Hrest) as [Hb Hlen].
    split; [|cbn [List.length]; now rewrite Hlen].
    constructor; [|exact Hb]. cbn [Year].
    cbn [geb] in Hy. unfold R_leb in Hy.
    destruct (Rle_dec 2003 r) as [Hr|Hr]; [|discriminate Hy].
    now apply to_int64_from_2003.
Qed.

Lemma filter_shorter {A : Type} (f : A -> bool) (l : list A) :
  (List.length (filter f l) <= List.length l)%nat.
Proof.
  induction l as [|a l IH]; [cbn; lia|].
  cbn [filter]. destruct (f a); cbn [List.length]; lia.
Qed.

(** X19.  After cleaning, every year is 2003 or later, or is the smallest
    int64, which the cast yields for a year beyond the int64 range; and no
    line is invented: the cleaned table is no longer than the file. *)
Theorem cleaned_years_from_2003 (df : frame) (table : list row) :
  clean df = Returns table ->
  Forall (fun r => (2003 <= Year r)%Z \/ Year r = int64_min) table /\
  (List.length table <= List.length (records df))%nat.
Proof.
  unfold clean, select.
  destruct (filter _ (map fst columns_to_use)) as [|c l]; [|discriminate].
  cbn [bind records]. intros Hc.
  apply cast_years_bound in Hc.
  - destruct Hc as [Hb Hlen]. split; [exact Hb|].
    rewrite Hlen.
    eapply Nat.le_trans; [apply filter_shorter|].
    eapply Nat.le_trans; [apply filter_shorter|].
    now rewrite length_map.
  - apply Forall_forall. intros l' Hin. apply filter_In in Hin. tauto.
Qed.

Lemma cleaned_years_from_2003_witness :
  exists table,
    clean descending_file = Returns table /\
    Forall (fun r => (2003 <= Year r)%Z \/ Year r = int64_min) table.
Proof.
  destruct descending_file_complete as (Hm & Hy).
  destruct (clean_kept_years descending_file Hm Hy) as (table & Hc & _).
  exists table. split; [exact Hc|].
  exact (proj1 (cleaned_years_from_2003 descending_file table Hc)).
Defined.

(** X20.  One infinite year stops the run: when every column is there and
    the year of some line is +inf, the cast to integers raises, the run
    prints one critical-error line and writes no file, whatever the other
    lines hold. *)
Theorem infinite_year_aborts (df : frame) :
  missing_columns df = [] ->
  (exists rec, In rec (records df) /\ rec src_Year = Inf false) ->
  clean df = Raises IntCastingNaNError /\
  run_lmdi_analysis (Some df)
    = ([PrintLine (CriticalError IntCastingNaNError)], Returns tt).
Proof.
  intros Hm Hinf.
  pose proof (clean_infinite_year df Hm Hinf) as Hc.
  split; [exact Hc|]. now rewrite (run_raises df _ Hc).
Qed.

Lemma infinite_year_aborts_witness :
  run_lmdi_analysis (Some infinite_year_file)
    = ([PrintLine (CriticalError IntCastingNaNError)], Returns tt).
Proof.
  apply (infinite_year_aborts infinite_year_file).
  - reflexivity.
  - eexists. split; [right; left; reflexivity | reflexivity].
Defined.

End RunFurther.

(* ================================================================== *)
(** * Part X.  Column cleaning                                          *)
(* ================================================================== *)

Section CleaningFacts.

Import Np Series.
Local Open Scope string_scope.

Lemma remove_char_chars (c : ascii) (s : string) (a : ascii) :
  In a (chars (remove_char c s)) <-> In a (chars s) /\ a <> c.
Proof.
  unfold chars. induction s as [|b s IH]; cbn [remove_char list_ascii_of_string].
  - cbn. tauto.
  - destruct (Ascii.eqb b c) eqn:E.
    + apply Ascii.eqb_eq in E. subst b. rewrite IH. cbn [In].
      split; [tauto|]. intros [[ -> | H] Hne]; [contradiction|tauto].
    + apply Ascii.eqb_neq in E. cbn [list_ascii_of_string In]. rewrite IH.
      split; [intros [ -> | [H Hne]]; auto | tauto].
Qed.

Lemma replace_char_chars (c d : ascii) (s : string) (a : ascii) :
  In a (chars (replace_char c d s)) ->
  (In a (chars s) /\ a <> c) \/ a = d.
Proof.
  unfold chars. induction s as [|b s IH]; cbn [replace_char list_ascii_of_string In].
  - tauto.
  - intros [H|H].
    + destruct (Ascii.eqb b c) eqn:E; [right; auto|].
      apply Ascii.eqb_neq in E. left. subst a. auto.
    + destruct (IH H) as [[H1 H2]|H1]; auto.
Qed.

Lemma remove_char_fixed (c : ascii) (s : string) :
  ~ In c (chars s) -> remove_char c s = s.
Proof.
  unfold chars. induction s as [|b s IH]; cbn [remove_char list_ascii_of_string In];
    [reflexivity|].
  intros H. destruct (Ascii.eqb b c) eqn:E.
  - apply Ascii.eqb_eq in E. tauto.
  - f_equal. apply IH. tauto.
Qed.

Lemma replace_char_fixed (c d : ascii) (s : string) :
  ~ In c (chars s) -> replace_char c d s = s.
Proof.
  unfold chars. induction s as [|b s IH]; cbn [replace_char list_ascii_of_string In];
    [reflexivity|].
  intros H. destruct (Ascii.eqb b c) eqn:E.
  - apply Ascii.eqb_eq in E. tauto.
  - f_equal. apply IH. tauto.
Qed.

Lemma remove_char_app (c : ascii) (s1 s2 : string) :
  remove_char c (s1 ++ s2) = remove_char c s1 ++ remove_char c s2.
Proof.
  induction s1 as [|b s1 IH]; cbn [remove_char append]; [reflexivity|].
  destruct (Ascii.eqb b c); cbn [append]; now rewrite IH.
Qed.

Lemma replace_char_app (c d : ascii) (s1 s2 : string) :
  replace_char c d (s1 ++ s2) = replace_char c d s1 ++ replace_char c d s2.
Proof.
  induction s1 as [|b s1 IH]; cbn [replace_char append]; [reflexivity|].
  now rewrite IH.
Qed.

Lemma clean_text_no_stray (s : string) (a : ascii) :
  In a (chars (clean_text s)) -> ~ stray a.
Proof.
  unfold clean_text. intros H.
  apply replace_char_chars in H. destruct H as [[H Hcomma] | ->].
  - apply remove_char_chars in H. destruct H as [H Hspace].
    apply remove_char_chars in H. destruct H as [_ Hq].
    intros [E|[E|E]]; contradiction.
  - intros [E|[E|E]]; discriminate E.
Qed.

Lemma clean_text_fixed (s : string) :
  (forall a, In a (chars s) -> ~ stray a) -> clean_text s = s.
Proof.
  intros H. unfold clean_text.
  assert (Hq : remove_char "?" s = s).
  { apply remove_char_fixed. intros Hin. apply (H _ Hin). left. reflexivity. }
  rewrite Hq.
  assert (Hs : remove_char " " s = s).
  { apply remove_char_fixed. intros Hin. apply (H _ Hin). right; left. reflexivity. }
  rewrite Hs.
  apply replace_char_fixed. intros Hin. apply (H _ Hin). right; right. reflexivity.
Qed.

(** X21.  A cleaned text holds no question mark, no space and no comma;
    a text that holds none of them is left as it is, so cleaning a second
    time changes nothing. *)
Theorem clean_text_normal_form (s : string) :
  (forall a, In a (chars (clean_text s)) -> ~ stray a) /\
  ((forall a, In a (chars s) -> ~ stray a) -> clean_text s = s) /\
  clean_text (clean_text s) = clean_text s.
Proof.
  split; [apply clean_text_no_stray|]. split; [apply clean_text_fixed|].
  apply clean_text_fixed, clean_text_no_stray.
Qed.

Lemma clean_text_normal_form_witness :
  clean_text "1234.5" = "1234.5".
Proof.
  apply (proj1 (proj2 (clean_text_normal_form "1234.5"))).
  intros a Hin. cbn in Hin.
  repeat (destruct Hin as [<-|Hin];
          [intros [E|[E|E]]; discriminate E|]).
  destruct Hin.
Defined.

Lemma clean_text_app (s1 s2 : string) :
  clean_text (s1 ++ s2) = clean_text s1 ++ clean_text s2.
Proof.
  unfold clean_text. now rewrite !remove_char_app, replace_char_app.
Qed.

(** X22.  Cleaning works piece by piece, and a decimal comma is read as a
    decimal point: the cleaned text of a concatenation is the concatenation
    of the cleaned texts, and two cells that differ only by a comma in the
    place of a point are parsed to the same number. *)
Theorem decimal_comma_as_point (to_numeric : string -> flt) (s1 s2 : string) :
  clean_text (s1 ++ s2) = clean_text s1 ++ clean_text s2 /\
  clean_column to_numeric [s1 ++ "," ++ s2]
    = clean_column to_numeric [s1 ++ "." ++ s2].
Proof.
  split; [apply clean_text_app|].
  unfold clean_column. cbn [map]. now rewrite !clean_text_app.
Qed.

Example clean_text_sample : clean_text "1 234,5?" = "1234.5".
Proof. reflexivity. Qed.

End CleaningFacts.
